(** * micromanager-agent: the telegram chat panel, the workplan panel and
      the chat ingress route

    A shallow embedding of
    - [TelegramChatPanel] (conversation merge, workflow-run poll, submit),
    - [TelegramWorkPlanPanel] (load, role drafts), and
    - the [POST /api/telegram/chat] route handler,
    followed by the properties of the specification that concern them.

    Conventions of the embedding.
    - A JavaScript string is a [string]; every [ascii] stands for one code
      unit below 256.
    - An instant ([Date], or an ISO date string that denotes one) is the
      number of milliseconds since the epoch, a [Z].  Invalid dates
      ([NaN] time values) are outside the model: with them the comparator
      handed to [Array.prototype.sort] is not consistent and the order of
      the result is left to the implementation.
    - React state is passed explicitly: a state setter called with an
      updater is the updater applied to the state.
    - [console.log] and [console.error] have no effect on the modelled
      state and are left out. *)

From Stdlib Require Import ZArith Ascii String.
From stdpp Require Import base list gmap strings sorting pretty.

Local Open Scope Z_scope.
Local Open Scope string_scope.
Local Open Scope list_scope.

(** ** JavaScript primitives used by the three files *)

Module JS.

(** White space of [String.prototype.trim] among the code units below 256:
    TAB, LF, VT, FF, CR, SP and NBSP. *)
Definition is_white_space (c : ascii) : bool :=
  let n := Ascii.N_of_ascii c in
  ((9 <=? n) && (n <=? 13) || (n =? 32) || (n =? 160))%N.

Fixpoint trimStart (s : string) : string :=
  match s with
  | String c s' => if is_white_space c then trimStart s' else s
  | EmptyString => EmptyString
  end.

Definition trimEnd (s : string) : string :=
  String.rev (trimStart (String.rev s)).

(** [s.trim()] *)
Definition trim (s : string) : string := trimEnd (trimStart s).

(** Truthiness of a string: [!s] is true exactly for the empty string. *)
Definition truthy_string (s : string) : bool :=
  if decide (s = "") then false else true.

(** Truthiness of [string | undefined | null]. *)
Definition truthy (o : option string) : bool :=
  match o with
  | Some s => truthy_string s
  | None => false
  end.

(** [xs.filter(Boolean)] on an array of optional strings. *)
Definition filter_Boolean (xs : list (option string)) : list string :=
  omap (λ o, if truthy o then o else None) xs.

(** [Array.prototype.sort(compareFn)]: a stable sort; [compareFn a b <= 0]
    keeps [a] before [b].  Written as a stable insertion sort. *)
Section sort.
Context {A : Type} (compareFn : A → A → Z).

Fixpoint sort_insert (x : A) (l : list A) : list A :=
  match l with
  | [] => [x]
  | y :: l' =>
      if decide (compareFn x y <= 0) then x :: y :: l'
      else y :: sort_insert x l'
  end.

Fixpoint sort (l : list A) : list A :=
  match l with
  | [] => []
  | x :: l' => sort_insert x (sort l')
  end.
End sort.

(** Ascending by a key, every element against every later one. *)
Definition ascending {A} (key : A → Z) (l : list A) : Prop :=
  StronglySorted (λ a b, key a <= key b) l.

(** [typeof o[k] === "undefined"] on an object literal looks [k] up along
    the prototype chain: the properties of [Object.prototype] are defined
    for every object. *)
Definition Object_prototype_keys : list string :=
  [ "constructor"; "__proto__"; "hasOwnProperty"; "isPrototypeOf";
    "propertyIsEnumerable"; "toLocaleString"; "toString"; "valueOf";
    "__defineGetter__"; "__defineSetter__"; "__lookupGetter__";
    "__lookupSetter__" ].

Definition inherited (k : string) : bool :=
  bool_decide (k ∈ Object_prototype_keys).

(** [typeof o[k] === "undefined"], for an object whose own properties all
    hold strings. *)
Definition is_undefined (o : gmap string string) (k : string) : bool :=
  match o !! k with
  | Some _ => false
  | None => negb (inherited k)
  end.

(** [o[k] = v]: an assignment; the key [__proto__] reaches the setter of
    [Object.prototype], which ignores a string. *)
Definition assign (k v : string) (o : gmap string string)
  : gmap string string :=
  if decide (k = "__proto__") then o else <[k := v]> o.

(** A value read from JSON.  Numbers are the integers; a number that is
    not one behaves, in the code modelled here, like a non-zero integer.
    [JObj props] lists the own properties of a parsed object, every key
    once. *)
#[local] Unset Elimination Schemes.
Inductive json : Type :=
| JNull
| JBool (b : bool)
| JNum (n : Z)
| JStr (s : string)
| JArr (xs : list json)
| JObj (props : list (string * json)).
#[local] Set Elimination Schemes.

(** Truthiness of a property that may be absent. *)
Definition truthy_json (v : option json) : bool :=
  match v with
  | None | Some JNull => false
  | Some (JBool b) => b
  | Some (JNum n) => if decide (n = 0) then false else true
  | Some (JStr s) => truthy_string s
  | Some (JArr _) | Some (JObj _) => true
  end.

(** [s.replace(pattern, replacement)] with a string pattern: the first
    occurrence only. *)
Fixpoint replace (pattern replacement s : string) : string :=
  if String.prefix pattern s
  then replacement +:+
       String.substring (String.length pattern)
         (String.length s - String.length pattern) s
  else
    match s with
    | EmptyString => EmptyString
    | String c s' => String c (replace pattern replacement s')
    end.

(** A call that either returns or throws. *)
Inductive outcome (A : Type) : Type :=
| Returns (a : A)
| Throws.
Global Arguments Returns {A} a.
Global Arguments Throws {A}.

(** Code with effects on a state [S] that may throw: the result and the
    state the call leaves behind (what was written before a throw stays
    written). *)
Definition Eff (S A : Type) : Type := S → outcome A * S.

Section Eff.
Context {S : Type}.

Definition ret {A} (a : A) : Eff S A := λ s, (Returns a, s).

Definition bind {A B} (m : Eff S A) (k : A → Eff S B) : Eff S B :=
  λ s, match m s with
       | (Returns a, s') => k a s'
       | (Throws, s') => (Throws, s')
       end.

Definition throw {A} : Eff S A := λ s, (Throws, s).

(** [await e] for an external call with outcome [o]. *)
Definition await {A} (o : outcome A) : Eff S A := λ s, (o, s).

(** [try { m } catch { handler }] *)
Definition try_catch {A} (m handler : Eff S A) : Eff S A :=
  λ s, match m s with
       | (Returns a, s') => (Returns a, s')
       | (Throws, s') => handler s'
       end.

(** [try { m } finally { cleanup }] *)
Definition try_finally {A} (m : Eff S A) (cleanup : Eff S unit)
  : Eff S A :=
  λ s, match m s with
       | (r, s') =>
           match cleanup s' with
           | (Returns _, s'') => (r, s'')
           | (Throws, s'') => (Throws, s'')
           end
       end.

Definition modify (f : S → S) : Eff S unit := λ s, (Returns (), f s).
Definition get : Eff S S := λ s, (Returns s, s).
End Eff.

Global Instance Eff_ret {S} : MRet (Eff S) := λ A, ret.
Global Instance Eff_bind {S} : MBind (Eff S) := λ A B k m, bind m k.

End JS.

(** Unfolds the combinators of [JS.Eff] so that a run can be computed. *)
Ltac run_eff :=
  unfold mbind, mret, JS.Eff_bind, JS.Eff_ret, JS.bind, JS.ret, JS.throw,
    JS.await, JS.try_catch, JS.try_finally, JS.modify, JS.get in *;
  simpl in *.

(** ** The chat panel: [TelegramChatPanel] *)

Module Chat.
Import JS.

(** [ChatMessage] of the realtime agent, as far as the panel reads it. *)
Record ChatMessage := {
  cm_id : option string;
  cm_role : string;
  cm_content : string;
  cm_createdAt : option Z;
}.

Record Metadata := {
  md_tokensUsed : option Z;
  md_reasoning : option string;
  md_error : option bool;
}.

Record StoredMessage := {
  sm_id : option string;
  sm_userId : string;
  sm_role : string;
  sm_content : string;
  sm_type : string;
  sm_createdAt : Z;
  sm_updatedAt : Z;
  sm_source : string;
  sm_metadata : option Metadata;
}.

(** The comparator of both sorts of the panel:
    [new Date(a.createdAt).getTime() - new Date(b.createdAt).getTime()]. *)
Definition byCreatedAt {A} (createdAt : A → Z) (a b : A) : Z :=
  createdAt a - createdAt b.

(** [existingIds.has(id)] *)
Definition has (ids : gset string) (id : option string) : bool :=
  match id with
  | Some s => bool_decide (s ∈ ids)
  | None => false
  end.

(** The non-empty identities of a message list, in order:
    [prev.map((msg) => msg.id).filter(Boolean)]. *)
Definition identities (l : list StoredMessage) : list string :=
  filter_Boolean (sm_id <$> l).

Section handleRealtimeMessages.
(** The panel's [userId] prop and the clock: [clock i] is what
    [new Date()] gives while the [i]-th incoming message is mapped. *)
Context (userId : string) (clock : nat → Z).

Definition toStored (i : nat) (message : ChatMessage) : StoredMessage :=
  let createdDate := default (clock i) (cm_createdAt message) in
  {| sm_id := cm_id message;
     sm_userId := userId;
     sm_role := cm_role message;
     sm_content := cm_content message;
     sm_type := "text";
     sm_createdAt := createdDate;
     sm_updatedAt := createdDate;
     sm_source :=
       if bool_decide (cm_role message = "assistant")
          || bool_decide (cm_role message = "tool")
       then "realtime-agent" else "telegram-user";
     sm_metadata := None |}.

Definition existingIds (prev : list StoredMessage) : gset string :=
  list_to_set (identities prev).

Definition mapped (incoming : list ChatMessage) : list StoredMessage :=
  imap toStored incoming.

(** The predicate of [mapped.filter]. *)
Definition survives (ids : gset string) (msg : StoredMessage) : bool :=
  negb (truthy (sm_id msg)) || negb (has ids (sm_id msg)).

Definition deduped (prev : list StoredMessage)
    (incoming : list ChatMessage) : list StoredMessage :=
  filter (λ msg, survives (existingIds prev) msg) (mapped incoming).

(** The [messages] state after [handleRealtimeMessages(incoming)]. *)
Definition handleRealtimeMessages (prev : list StoredMessage)
    (incoming : list ChatMessage) : list StoredMessage :=
  if decide (length incoming = 0%nat) then prev
  else
    let deduped := deduped prev incoming in
    if decide (length deduped = 0%nat) then prev
    else sort (byCreatedAt sm_createdAt) (prev ++ deduped).
End handleRealtimeMessages.

(** A tool call of a workflow run, with the ten properties the panel
    copies. *)
Record ToolCall := {
  tc_toolName : string;
  tc_displayTitle : string;
  tc_displayDescription : option string;
  tc_arguments : json;
  tc_result : option json;
  tc_status : string;
  tc_error : option string;
  tc_duration : option Z;
  tc_createdAt : Z;
  tc_updatedAt : Z;
}.

(** A workflow run; [toolCalls] lists the own properties of the mapping in
    the order [Object.values] enumerates them. *)
Record WorkflowRun := {
  toolCalls : option (list (string * ToolCall));
}.

(** The body of [GET /api/user/workflow-runs]. *)
Record WorkflowRuns := {
  current : option WorkflowRun;
  previous : option WorkflowRun;
}.

(** The body of [POST /api/telegram/chat], an object whose [response] is a
    string, as the route sends it; the other properties may be absent. *)
Record ChatReply := {
  cr_response : string;
  cr_error : option json;
  cr_tokensUsed : option json;
  cr_reasoning : option json;
}.

Record Request := {
  url : string;
  method : string;
  contentType : option string;
  authorization : string;
  body : option json;
}.

(** What [fetch] resolves to: [response.ok] and [response.json()]. *)
Record Response (B : Type) := {
  ok : bool;
  json_body : outcome B;
}.
Global Arguments ok {B} _.
Global Arguments json_body {B} _.

(** The state of the panel. *)
Record PanelState := {
  messages : list StoredMessage;
  input : string;
  isLoading : bool;
  error : option string;
  profile : option json;
  toolCallHistory : list ToolCall;
  showWorkPlan : bool;
}.

(** The panel together with the requests it has handed to [fetch]. *)
Record World := {
  panel : PanelState;
  sent : list Request;
}.

Definition setMessages (f : list StoredMessage → list StoredMessage)
  : Eff World unit :=
  modify (λ w, let p := panel w in
    {| panel := {| messages := f (messages p); input := input p;
                   isLoading := isLoading p; error := error p;
                   profile := profile p;
                   toolCallHistory := toolCallHistory p;
                   showWorkPlan := showWorkPlan p |};
       sent := sent w |}).

Definition setInput (v : string) : Eff World unit :=
  modify (λ w, let p := panel w in
    {| panel := {| messages := messages p; input := v;
                   isLoading := isLoading p; error := error p;
                   profile := profile p;
                   toolCallHistory := toolCallHistory p;
                   showWorkPlan := showWorkPlan p |};
       sent := sent w |}).

Definition setIsLoading (v : bool) : Eff World unit :=
  modify (λ w, let p := panel w in
    {| panel := {| messages := messages p; input := input p;
                   isLoading := v; error := error p;
                   profile := profile p;
                   toolCallHistory := toolCallHistory p;
                   showWorkPlan := showWorkPlan p |};
       sent := sent w |}).

Definition setError (v : option string) : Eff World unit :=
  modify (λ w, let p := panel w in
    {| panel := {| messages := messages p; input := input p;
                   isLoading := isLoading p; error := v;
                   profile := profile p;
                   toolCallHistory := toolCallHistory p;
                   showWorkPlan := showWorkPlan p |};
       sent := sent w |}).

Definition setProfile (v : option json) : Eff World unit :=
  modify (λ w, let p := panel w in
    {| panel := {| messages := messages p; input := input p;
                   isLoading := isLoading p; error := error p;
                   profile := v;
                   toolCallHistory := toolCallHistory p;
                   showWorkPlan := showWorkPlan p |};
       sent := sent w |}).

Definition setToolCallHistory (v : list ToolCall) : Eff World unit :=
  modify (λ w, let p := panel w in
    {| panel := {| messages := messages p; input := input p;
                   isLoading := isLoading p; error := error p;
                   profile := profile p;
                   toolCallHistory := v;
                   showWorkPlan := showWorkPlan p |};
       sent := sent w |}).

Definition setShowWorkPlan (v : bool) : Eff World unit :=
  modify (λ w, let p := panel w in
    {| panel := {| messages := messages p; input := input p;
                   isLoading := isLoading p; error := error p;
                   profile := profile p;
                   toolCallHistory := toolCallHistory p;
                   showWorkPlan := v |};
       sent := sent w |}).

(** [fetch(request)]: the request is handed to the network, which answers
    with [answer]. *)
Definition fetch {B} (request : Request) (answer : outcome (Response B))
  : Eff World (Response B) :=
  modify (λ w, {| panel := panel w; sent := sent w ++ [request] |}) ;;
  await answer.

(** [`Bearer ${token}`] with the token of [localStorage]. *)
Definition bearer (token : option string) : string :=
  "Bearer " +:+ default "null" token.

Section pollWorkflowRuns.
(** [localStorage.getItem("telegram-token")] and the answer of the
    workflow-run endpoint. *)
Context (token : option string)
        (workflowRuns : Request → outcome (Response WorkflowRuns)).

Definition workflowRunsRequest : Request :=
  {| url := "/api/user/workflow-runs"; method := "GET";
     contentType := None; authorization := bearer token;
     body := None |}.

(** The copy made by [.map((call) => ({ ... }))]. *)
Definition copyCall (call : ToolCall) : ToolCall :=
  {| tc_toolName := tc_toolName call;
     tc_displayTitle := tc_displayTitle call;
     tc_displayDescription := tc_displayDescription call;
     tc_arguments := tc_arguments call;
     tc_result := tc_result call;
     tc_status := tc_status call;
     tc_error := tc_error call;
     tc_duration := tc_duration call;
     tc_createdAt := tc_createdAt call;
     tc_updatedAt := tc_updatedAt call |}.

Definition toolCallsArray (calls : list (string * ToolCall))
  : list ToolCall :=
  sort (byCreatedAt tc_createdAt) (copyCall <$> (snd <$> calls)).

(** [isLoading ? data.current : data.previous] *)
Definition workflowToDisplay (isLoading : bool) (data : WorkflowRuns)
  : option WorkflowRun :=
  if isLoading then current data else previous data.

(** One call of [pollWorkflowRuns]; [isLoading] is the value the effect
    closed over. *)
Definition pollWorkflowRuns (isLoading : bool) : Eff World unit :=
  try_catch
    (let request := workflowRunsRequest in
     response ← fetch request (workflowRuns request);
     if ok response then
       data ← await (json_body response);
       match workflowToDisplay isLoading data ≫= toolCalls with
       | Some calls => setToolCallHistory (toolCallsArray calls)
       | None => mret ()
       end
     else mret ())
    (mret ()).
End pollWorkflowRuns.

Section handleSubmit.
(** The panel's [userId] prop, the token of [localStorage], the clock
    ([clock i] is the [i]-th reading taken by the call) and the answers
    of the three endpoints. *)
Context (userId : string) (token : option string) (clock : nat → Z)
        (chat : Request → outcome (Response ChatReply))
        (usage : Request → outcome (Response json))
        (userProfile : Request → outcome (Response json)).

Definition userMessage (input : string) : StoredMessage :=
  {| sm_id := Some (pretty (clock 0));
     sm_content := trim input;
     sm_role := "user";
     sm_createdAt := clock 1;
     sm_updatedAt := clock 2;
     sm_type := "text";
     sm_userId := userId;
     sm_source := "telegram-user";
     sm_metadata := None |}.

Definition metadataOf (data : ChatReply) : option Metadata :=
  let tokensUsed :=
    match cr_tokensUsed data with Some (JNum n) => Some n | _ => None end in
  let reasoning :=
    match cr_reasoning data with
    | Some (JStr r) =>
        if decide (0 < String.length (trim r))%nat then Some (trim r)
        else None
    | _ => None
    end in
  let error :=
    match cr_error data with Some (JBool true) => Some true | _ => None end in
  match tokensUsed, reasoning, error with
  | None, None, None => None
  | _, _, _ =>
      Some {| md_tokensUsed := tokensUsed; md_reasoning := reasoning;
              md_error := error |}
  end.

Definition assistantMessage (data : ChatReply) : StoredMessage :=
  {| sm_id := Some (pretty (clock 3) +:+ "-assistant");
     sm_content := cr_response data;
     sm_role := "assistant";
     sm_createdAt := clock 4;
     sm_updatedAt := clock 5;
     sm_type := "text";
     sm_userId := userId;
     sm_source := "micromanager";
     sm_metadata := metadataOf data |}.

Definition chatRequest (message : string) : Request :=
  {| url := "/api/telegram/chat"; method := "POST";
     contentType := Some "application/json";
     authorization := bearer token;
     body := Some (JObj [("message", JStr message);
                         ("userId", JStr userId)]) |}.

Definition usageRequest (tokensUsed : json) : Request :=
  {| url := "/api/user/usage"; method := "POST";
     contentType := Some "application/json";
     authorization := bearer token;
     body := Some (JObj [("tokens", tokensUsed); ("messages", JNum 1)]) |}.

Definition profileRequest : Request :=
  {| url := "/api/user/profile"; method := "GET";
     contentType := None; authorization := bearer token;
     body := None |}.

(** [handleSubmit(e)], run to its end; [e.preventDefault()] touches
    nothing modelled here. *)
Definition handleSubmit : Eff World unit :=
  w ← get;
  if negb (truthy_string (trim (input (panel w)))) || isLoading (panel w)
  then mret ()
  else
    let userMessage := userMessage (input (panel w)) in
    setShowWorkPlan false ;;
    setMessages (λ prev, prev ++ [userMessage]) ;;
    setInput "" ;;
    setIsLoading true ;;
    setError None ;;
    setToolCallHistory [] ;;
    try_finally
      (try_catch
         (let request := chatRequest (sm_content userMessage) in
          response ← fetch request (chat request);
          if negb (ok response) then throw
          else
            data ← await (json_body response);
            setMessages (λ prev, prev ++ [assistantMessage data]) ;;
            if truthy_json (cr_tokensUsed data) then
              let request := usageRequest (default JNull (cr_tokensUsed data)) in
              _ ← fetch request (usage request);
              profileResponse ← fetch profileRequest (userProfile profileRequest);
              if ok profileResponse then
                updatedProfile ← await (json_body profileResponse);
                setProfile (Some updatedProfile)
              else mret ()
            else mret ())
         (setError (Some "Failed to send message. Please try again.")))
      (setIsLoading false).
End handleSubmit.

(** *** What the panel derives from its state *)

(** The loops of [lastUserMessage], [lastAssistantMessage],
    [hasLastMessageError] and [retryLastMessage] walk the messages from the
    last to the first and stop at the first message of the role; [l] is the
    list in that order. *)
Fixpoint firstOfRole (role : string) (l : list StoredMessage)
  : option StoredMessage :=
  match l with
  | [] => None
  | message :: l' =>
      if decide (sm_role message = role) then Some message
      else firstOfRole role l'
  end.

Definition lastUserMessage (messages : list StoredMessage) : option string :=
  sm_content <$> firstOfRole "user" (reverse messages).

Definition lastAssistantMessage (messages : list StoredMessage)
  : option string :=
  sm_content <$> firstOfRole "assistant" (reverse messages).

(** [message.metadata?.error === true] *)
Definition metadataError (message : StoredMessage) : bool :=
  match sm_metadata message with
  | Some md => match md_error md with Some true => true | _ => false end
  | None => false
  end.

Definition hasLastMessageError (messages : list StoredMessage) : bool :=
  match firstOfRole "assistant" (reverse messages) with
  | Some message => metadataError message
  | None => false
  end.

(** The texts handed to the ticker:
    [lastUserMessage ?? DEFAULT_TICKER_CONTENT.user] and
    [isLoading ? "" : lastAssistantMessage ?? DEFAULT_TICKER_CONTENT.assistant]. *)
Definition userText (p : PanelState) : string :=
  default "" (lastUserMessage (messages p)).

Definition assistantText (p : PanelState) : string :=
  if isLoading p then "" else default "" (lastAssistantMessage (messages p)).

(** [retryLastMessage()]: the input takes the text of the last message of
    the user; the result tells whether [requestSubmit] has been scheduled
    (it runs 100 ms later). *)
Definition retryLastMessage : Eff World bool :=
  w ← get;
  match firstOfRole "user" (reverse (messages (panel w))) with
  | Some message => setInput (sm_content message) ;; mret true
  | None => mret false
  end.

(** The body of [GET /api/telegram/chat/history]. *)
Record History := {
  h_messages : option (list StoredMessage);
}.

Section loadMessages.
Context (token : option string)
        (history : Request → outcome (Response History))
        (userProfile : Request → outcome (Response json)).

Definition historyRequest : Request :=
  {| url := "/api/telegram/chat/history"; method := "GET";
     contentType := None; authorization := bearer token;
     body := None |}.

(** [loadMessages()] *)
Definition loadMessages : Eff World unit :=
  try_catch
    (response ← fetch historyRequest (history historyRequest);
     if ok response then
       data ← await (json_body response);
       setMessages (λ _, default [] (h_messages data))
     else mret ())
    (mret ()).

(** [loadProfile()] *)
Definition loadProfile : Eff World unit :=
  let request :=
    {| url := "/api/user/profile"; method := "GET";
       contentType := None; authorization := bearer token;
       body := None |} in
  try_catch
    (response ← fetch request (userProfile request);
     if ok response then
       data ← await (json_body response);
       setProfile (Some data)
     else mret ())
    (mret ()).
End loadMessages.

(** A string made of decimal digits and minus signs only. *)
Fixpoint numeric (s : string) : bool :=
  match s with
  | EmptyString => true
  | String c s' =>
      (bool_decide (c = "-"%char)
       || (48 <=? Ascii.N_of_ascii c)%N && (Ascii.N_of_ascii c <=? 57)%N)
      && numeric s'
  end.

End Chat.

(** ** The workplan panel: [TelegramWorkPlanPanel] *)

Module Workplan.
Import JS.

Record Event := {
  ev_id : string;
  ev_title : string;
  ev_start : option string;
  ev_end : option string;
  ev_location : option string;
  ev_description : option string;
}.

Record WorkplanEntry := {
  event : Event;
  status : string;
  steps : list string;
  lastGeneratedAt : option string;
  role : option string;
  entry_error : option string;
}.

(** Modelled from the spec: [normaliseRole] is imported from the workplan
    panel, which is not part of the sources at hand.  The specification
    gives it as: trim; collapse to absent if empty after the trim. *)
Definition normaliseRole (value : option string) : option string :=
  match value with
  | Some v => if truthy_string (trim v) then Some (trim v) else None
  | None => None
  end.

(** The body of [GET /api/workplan]; an entry of the array may be [null]. *)
Record WorkplanList := {
  workplans_field : option (list (option WorkplanEntry));
}.

Record Response := {
  ok : bool;
  json_body : outcome WorkplanList;
}.

(** The state of the panel. *)
Record State := {
  workplans : list WorkplanEntry;
  loadingList : bool;
  regenerating : bool;
  selectedId : option string;
  error : option string;
  roleDrafts : gmap string string;
}.

Definition setWorkplans (f : list WorkplanEntry → list WorkplanEntry)
  : Eff State unit :=
  modify (λ s,
    {| workplans := f (workplans s); loadingList := loadingList s;
       regenerating := regenerating s; selectedId := selectedId s;
       error := error s; roleDrafts := roleDrafts s |}).

Definition setLoadingList (v : bool) : Eff State unit :=
  modify (λ s,
    {| workplans := workplans s; loadingList := v;
       regenerating := regenerating s; selectedId := selectedId s;
       error := error s; roleDrafts := roleDrafts s |}).

Definition setSelectedId (v : option string) : Eff State unit :=
  modify (λ s,
    {| workplans := workplans s; loadingList := loadingList s;
       regenerating := regenerating s; selectedId := v;
       error := error s; roleDrafts := roleDrafts s |}).

Definition setError (v : option string) : Eff State unit :=
  modify (λ s,
    {| workplans := workplans s; loadingList := loadingList s;
       regenerating := regenerating s; selectedId := selectedId s;
       error := v; roleDrafts := roleDrafts s |}).

Definition setRoleDrafts (f : gmap string string → gmap string string)
  : Eff State unit :=
  modify (λ s,
    {| workplans := workplans s; loadingList := loadingList s;
       regenerating := regenerating s; selectedId := selectedId s;
       error := error s; roleDrafts := f (roleDrafts s) |}).

(** [item.role?.trim() ?? ""] *)
Definition seedOf (item : WorkplanEntry) : string :=
  default "" (trim <$> role item).

(** [mocks.reduce((acc, item) => { acc[item.event.id] = ...; return acc }, {})] *)
Definition mockDrafts (mocks : list WorkplanEntry) : gmap string string :=
  foldl (λ acc item, assign (ev_id (event item)) (seedOf item) acc) ∅ mocks.

(** The updater given to [setRoleDrafts] when entries have arrived. *)
Definition seedDrafts (items : list WorkplanEntry)
    (prev : gmap string string) : gmap string string :=
  foldl (λ next item,
           if is_undefined next (ev_id (event item))
           then assign (ev_id (event item)) (seedOf item) next
           else next)
        prev items.

(** [xs[0]?.event.id ?? null] *)
Definition firstId (xs : list WorkplanEntry) : option string :=
  (λ item, ev_id (event item)) <$> head xs.

Section load.
(** The array [getMockWorkplans()] returns (the function belongs to the
    workplan panel, which is not part of the sources at hand), the
    answer of the fetch, and the [cancelled] flag as it stands when the
    fetch has settled. *)
Context (getMockWorkplans : list WorkplanEntry)
        (fetched : outcome Response) (cancelled : bool).

Definition showMocks : Eff State unit :=
  let mocks := getMockWorkplans in
  setWorkplans (λ _, mocks) ;;
  setRoleDrafts (λ _, mockDrafts mocks) ;;
  setSelectedId (firstId mocks).

(** [load()], run to its end. *)
Definition load : Eff State unit :=
  setLoadingList true ;;
  setError None ;;
  try_finally
    (try_catch
       (res ← await fetched;
        if negb (ok res) then throw
        else
          data ← await (json_body res);
          let items := omap id (default [] (workplans_field data)) in
          if negb cancelled then
            if decide (length items = 0%nat) then showMocks
            else
              setWorkplans (λ _, items) ;;
              setRoleDrafts (seedDrafts items) ;;
              setSelectedId (firstId items)
          else mret ())
       (if negb cancelled then
          showMocks ;;
          setError (Some "Failed to load upcoming workplans. Showing examples.")
        else mret ()))
    (if negb cancelled then setLoadingList false else mret ()).
End load.

(** What a settled fetch hands to [load]: the entries of the answer, or
    nothing when the fetch, its status or its body failed. *)
Definition arrival (fetched : outcome Response)
  : option (list WorkplanEntry) :=
  match fetched with
  | Returns res =>
      if ok res then
        match json_body res with
        | Returns data => Some (omap id (default [] (workplans_field data)))
        | Throws => None
        end
      else None
  | Throws => None
  end.

(** The first of the entries with the event identity [k]. *)
Definition firstWith (k : string) (items : list WorkplanEntry)
  : option WorkplanEntry :=
  head (filter (λ item, ev_id (event item) = k) items).

(** [handleRoleChange(eventId, value)] *)
Definition handleRoleChange (eventId value : string) : Eff State unit :=
  setRoleDrafts (λ prev, <[eventId := value]> prev) ;;
  setWorkplans (λ prev,
    (λ item,
       if decide (ev_id (event item) = eventId)
       then {| event := event item; status := status item;
               steps := steps item;
               lastGeneratedAt := lastGeneratedAt item;
               role := normaliseRole (Some value);
               entry_error := entry_error item |}
       else item) <$> prev).

(** *** Selection, the displayed role and regeneration *)

Definition setRegenerating (v : bool) : Eff State unit :=
  modify (λ s,
    {| workplans := workplans s; loadingList := loadingList s;
       regenerating := v; selectedId := selectedId s;
       error := error s; roleDrafts := roleDrafts s |}).

(** [workplans.find((item) => item.event.id === selectedId) ?? null] *)
Definition selected (st : State) : option WorkplanEntry :=
  match selectedId st with
  | Some k => firstWith k (workplans st)
  | None => None
  end.

(** [roleDrafts[k] ?? ""]: the own property when there is one, the empty
    string when the key is undefined; for a key that only
    [Object.prototype] defines the value is not a string ([None]). *)
Definition readDraft (drafts : gmap string string) (k : string)
  : option string :=
  match drafts !! k with
  | Some v => Some v
  | None => if inherited k then None else Some ""
  end.

Section display.
(** [inferRoleFromEvent] belongs to the workplan panel, which is not part
    of the sources at hand. *)
Context (inferRoleFromEvent : Event → string).

(** [selectedRoleDraft] *)
Definition selectedRoleDraft (st : State) : option string :=
  match selected st with
  | Some item => readDraft (roleDrafts st) (ev_id (event item))
  | None => Some ""
  end.

(** [selectedRoleFallback] *)
Definition selectedRoleFallback (st : State) : string :=
  match selected st with
  | Some item =>
      if truthy (role item) then trim (default "" (role item))
      else inferRoleFromEvent (event item)
  | None => ""
  end.

(** [selectedRoleDisplay]; [.trim()] on a draft that is not a string
    throws. *)
Definition selectedRoleDisplay (st : State) : outcome string :=
  match selectedRoleDraft st with
  | None => Throws
  | Some draft =>
      match selected st with
      | Some _ =>
          if decide (String.length (trim draft) = 0%nat)
          then Returns (selectedRoleFallback st)
          else Returns (trim draft)
      | None => Returns (trim draft)
      end
  end.
End display.

(** The body sent to [POST /api/workplan/regenerate]; [userRole] is left
    out when it is [None]. *)
Record RegenerateRequest := {
  rq_event : Event;
  rq_userRole : option string;
}.

(** The body of the answer, as far as [handleRegenerate] reads it. *)
Record RegenerateReply := {
  rg_steps : option (list string);
  rg_status : option string;
  rg_lastGeneratedAt : option string;
  rg_role : option string;
}.

Record RegenerateResponse := {
  rg_ok : bool;
  rg_json : outcome RegenerateReply;
}.

(** The entry after a regeneration that was answered with [data]. *)
Definition regenerated (payloadRole : option string) (data : RegenerateReply)
    (item : WorkplanEntry) : WorkplanEntry :=
  {| event := event item;
     steps := default [] (rg_steps data);
     status := default "ready" (rg_status data);
     lastGeneratedAt := rg_lastGeneratedAt data;
     entry_error := None;
     role :=
       match normaliseRole (rg_role data) with
       | Some r => Some r
       | None => payloadRole
       end |}.

Section handleRegenerate.
Context (regenerate : RegenerateRequest → outcome RegenerateResponse).

(** [handleRegenerate()], run to its end.  [selected], [roleDrafts] and
    [selectedRoleDraft] are those of the render the handler belongs to; a
    draft that is not a string makes [normaliseRole] (a trim) throw. *)
Definition handleRegenerate : Eff State unit :=
  st ← get;
  match selected st with
  | None => mret ()
  | Some sel =>
      setRegenerating true ;;
      setError None ;;
      try_finally
        (try_catch
           (draftRole ← await
              (match readDraft (roleDrafts st) (ev_id (event sel)) with
               | Some draft => Returns draft
               | None => Throws
               end);
            let payloadRole := normaliseRole (Some draftRole) in
            res ← await (regenerate {| rq_event := event sel;
                                       rq_userRole := payloadRole |});
            if negb (rg_ok res) then throw
            else
              data ← await (rg_json res);
              setWorkplans (λ prev,
                (λ item,
                   if decide (ev_id (event item) = ev_id (event sel))
                   then regenerated payloadRole data item
                   else item) <$> prev) ;;
              setRoleDrafts (λ prev,
                <[ev_id (event sel) :=
                    if decide (0 < String.length (trim draftRole))%nat
                    then trim draftRole
                    else default "" (rg_role data)]> prev))
           (setError
              (Some "Unable to regenerate workplan right now. Try again later.")))
        (setRegenerating false)
  end.
End handleRegenerate.

(** *** The panel as the user drives it *)





End Workplan.

(** ** The chat ingress: [POST /api/telegram/chat] *)

Module Route.
Import JS.

(** The argument of [insertMessage]. *)
Record Message := {
  userId : json;
  role : string;
  content : json;
  type : string;
  source : string;
  createdAt : Z;
  updatedAt : Z;
  metadata_error : option bool;
}.

(** The messages persisted so far. *)
Definition Store : Type := list Message.

Record WorkflowInput := {
  input_as_text : json;
  user_id : json;
  wf_source : string;
  usageTaskType : string;
}.

(** What [runWorkflow] resolves to; [error] is the property of that name
    when the result has one. *)
Record WorkflowResult := {
  output_text : string;
  error : option json;
}.

Record NextRequest := {
  authorization : option string;
  json_body : outcome json;
}.

Record NextResponse := {
  status : Z;
  body : json;
}.

(** [const { message, userId } = v]: taking the properties apart throws
    on [null]; a value that is no object has neither property. *)
Definition property (name : string) (v : json) : option json :=
  match v with
  | JObj props => snd <$> List.find (λ p, String.eqb (fst p) name) props
  | _ => None
  end.

Definition destructure (v : json) : outcome (option json * option json) :=
  match v with
  | JNull => Throws
  | _ => Returns (property "message" v, property "userId" v)
  end.

(** [header.replace("Bearer ", "")] *)
Definition bearerToken (header : string) : string :=
  replace "Bearer " "" header.

(** A property that is absent or the empty string. *)
Definition missing (v : option json) : Prop :=
  v = None ∨ v = Some (JStr "").

(** [undefined] handed on as a value. *)
Definition value (v : option json) : json := default JNull v.

Section POST.
(** The collaborators of the handler:
    - [verifyTelegramServerToken] and [jwtVerify] (with [env.JWT_SECRET])
      on a token,
    - [getUserById], which the handler only awaits,
    - whether [insertMessage] throws, given what is stored and what is
      to be stored,
    - [runWorkflow], and
    - the clock: [clock i] is the [i]-th [new Date()] of the call. *)
Context (verifyTelegramServerToken : string → outcome bool)
        (jwtVerify : string → outcome unit)
        (getUserById : json → outcome unit)
        (insertMessage_throws : Store → Message → bool)
        (runWorkflow : WorkflowInput → outcome WorkflowResult)
        (clock : nat → Z).

(** Modelled from the spec: [insertMessage] belongs to the conversation
    library, which is not part of the sources at hand.  It persists the
    message it is given; a call that throws persists nothing. *)
Definition insertMessage (m : Message) : Eff Store unit :=
  λ store,
    if insertMessage_throws store m then (Throws, store)
    else (Returns (), store ++ [m]).

Definition json_response (status : Z) (body : json)
  : Eff Store NextResponse :=
  mret {| status := status; body := body |}.

(** The message stored for the user, the input of the workflow and the
    message stored for the assistant. *)
Definition inboundMessage (message userId : option json) : Message :=
  {| userId := value userId; role := "user";
     content := value message; type := "text";
     source := "telegram-user";
     createdAt := clock 0; updatedAt := clock 1;
     metadata_error := None |}.

Definition workflowInput (message userId : option json) : WorkflowInput :=
  {| input_as_text := value message; user_id := value userId;
     wf_source := "telegram"; usageTaskType := "chat" |}.

(** ["error" in workflowResult && workflowResult.error === true] *)
Definition hasError (workflowResult : WorkflowResult) : bool :=
  match error workflowResult with
  | Some (JBool true) => true
  | _ => false
  end.

Definition outboundMessage (userId : option json)
    (workflowResult : WorkflowResult) : Message :=
  {| userId := value userId; role := "assistant";
     content := JStr (output_text workflowResult); type := "text";
     source := "micromanager";
     createdAt := clock 2; updatedAt := clock 3;
     metadata_error :=
       if hasError workflowResult then Some true else None |}.

(** The steps after the token has been accepted. *)
Definition process (req : NextRequest) : Eff Store NextResponse :=
  parsed ← await (json_body req);
  '(message, userId) ← await (destructure parsed);
  if negb (truthy_json message) || negb (truthy_json userId) then
    json_response 400
      (JObj [("error", JStr "Message and userId are required")])
  else
    _ ← await (getUserById (value userId));
    insertMessage (inboundMessage message userId) ;;
    workflowResult ← await (runWorkflow (workflowInput message userId));
    insertMessage (outboundMessage userId workflowResult) ;;
    json_response 200
      (JObj [("response", JStr (output_text workflowResult));
             ("error", JBool (hasError workflowResult))]).

Definition unauthorized (message : string) : Eff Store NextResponse :=
  json_response 401 (JObj [("error", JStr message)]).

(** The handler. *)
Definition POST (req : NextRequest) : Eff Store NextResponse :=
  try_catch
    (let token := bearerToken <$> authorization req in
     match token with
     | None => unauthorized "Unauthorized"
     | Some token =>
         if negb (truthy_string token) then unauthorized "Unauthorized"
         else
           (* [Some r]: the nested handlers return [r] from [POST];
              [None]: control reaches the statement after them. *)
           verdict ← try_catch
             (isValid ← await (verifyTelegramServerToken token);
              if negb isValid then throw else mret (None, isValid))
             (try_catch
                (await (jwtVerify token) ;; mret (None, true))
                (r ← unauthorized "Invalid token"; mret (Some r, false)));
           match verdict with
           | (Some r, _) => mret r
           | (None, isValid) =>
               if negb isValid then unauthorized "Invalid token"
               else process req
           end
     end)
    (json_response 500 (JObj [("error", JStr "Failed to process message")])).
End POST.

End Route.

(** ** Sample data *)

Module Samples.
Import JS.

(** A stored message with the identity [id] (when it has one), created at
    [t]. *)
Definition stored (id : option string) (t : Z) : Chat.StoredMessage :=
  {| Chat.sm_id := id; Chat.sm_userId := "u1"; Chat.sm_role := "user";
     Chat.sm_content := "hello"; Chat.sm_type := "text";
     Chat.sm_createdAt := t; Chat.sm_updatedAt := t;
     Chat.sm_source := "telegram-user"; Chat.sm_metadata := None |}.

(** A message of the realtime agent with the identity [id], created at [t]. *)
Definition streamed (id : option string) (t : Z) : Chat.ChatMessage :=
  {| Chat.cm_id := id; Chat.cm_role := "assistant";
     Chat.cm_content := "hi there"; Chat.cm_createdAt := Some t |}.

(** A workplan entry for the event [id] with the stored role [r]. *)
Definition entry (id : string) (r : option string) : Workplan.WorkplanEntry :=
  {| Workplan.event :=
       {| Workplan.ev_id := id; Workplan.ev_title := "Weekly sync";
          Workplan.ev_start := Some "2025-01-06T09:00:00.000Z";
          Workplan.ev_end := Some "2025-01-06T10:00:00.000Z";
          Workplan.ev_location := None; Workplan.ev_description := None |};
     Workplan.status := "ready";
     Workplan.steps := ["Review the agenda"];
     Workplan.lastGeneratedAt := None;
     Workplan.role := r;
     Workplan.entry_error := None |}.

(** A workplan panel that shows [items] and holds [drafts]. *)
Definition shows (items : list Workplan.WorkplanEntry)
    (drafts : gmap string string) : Workplan.State :=
  {| Workplan.workplans := items; Workplan.loadingList := false;
     Workplan.regenerating := false;
     Workplan.selectedId := Workplan.firstId items;
     Workplan.error := None; Workplan.roleDrafts := drafts |}.

(** An answer of the workplan endpoint that carries [items]. *)
Definition answer (items : list Workplan.WorkplanEntry)
  : outcome Workplan.Response :=
  Returns {| Workplan.ok := true;
             Workplan.json_body :=
               Returns {| Workplan.workplans_field := Some (Some <$> items) |} |}.

(** An answer of the regeneration endpoint with two steps and the role
    [r]. *)
Definition plan (r : option string) : Workplan.RegenerateReply :=
  {| Workplan.rg_steps := Some ["Read the brief"; "Draft the agenda"];
     Workplan.rg_status := Some "ready";
     Workplan.rg_lastGeneratedAt := Some "2025-01-06T08:00:00.000Z";
     Workplan.rg_role := r |}.

Definition regenerates (r : option string)
  : Workplan.RegenerateRequest → outcome Workplan.RegenerateResponse :=
  λ _, Returns {| Workplan.rg_ok := true;
                  Workplan.rg_json := Returns (plan r) |}.

(** A regeneration endpoint that answers with the status 500. *)
Definition overloaded
  : Workplan.RegenerateRequest → outcome Workplan.RegenerateResponse :=
  λ _, Returns {| Workplan.rg_ok := false; Workplan.rg_json := Throws |}.

(** A request to the chat route with the header [header] and the body
    [body]. *)
Definition request (header : option string) (body : json)
  : Route.NextRequest :=
  {| Route.authorization := header; Route.json_body := Returns body |}.

(** A token check that accepts the token [good] alone. *)
Definition accepts (good : string) : string → outcome bool :=
  λ token, Returns (bool_decide (token = good)).

(** A signature check that throws on every token. *)
Definition noJwt : string → outcome unit := λ _, Throws.

Definition chatBody : json :=
  JObj [("message", JStr "hi"); ("userId", JStr "u1")].

(** A tool call named [name], created at [t]. *)
Definition toolCall (name : string) (t : Z) : Chat.ToolCall :=
  {| Chat.tc_toolName := name; Chat.tc_displayTitle := name;
     Chat.tc_displayDescription := None; Chat.tc_arguments := JObj [];
     Chat.tc_result := None; Chat.tc_status := "success";
     Chat.tc_error := None; Chat.tc_duration := Some 12;
     Chat.tc_createdAt := t; Chat.tc_updatedAt := t |}.

(** A chat panel with the input [text], the loading flag [loading] and the
    tool-call history [history]. *)
Definition typing (text : string) (loading : bool)
    (history : list Chat.ToolCall) : Chat.World :=
  {| Chat.panel :=
       {| Chat.messages := [stored (Some "m1") 10]; Chat.input := text;
          Chat.isLoading := loading; Chat.error := None;
          Chat.profile := None; Chat.toolCallHistory := history;
          Chat.showWorkPlan := false |};
     Chat.sent := [] |}.

(** An answer of the workflow-run endpoint whose current run has the
    tool-call mapping [calls] and which has no previous run. *)
Definition running (calls : list (string * Chat.ToolCall))
  : Chat.Request → outcome (Chat.Response Chat.WorkflowRuns) :=
  λ _, Returns
    {| Chat.ok := true;
       Chat.json_body :=
         Returns {| Chat.current := Some {| Chat.toolCalls := Some calls |};
                    Chat.previous := None |} |}.

(** The chat endpoint answering [text] without error, tokens or reasoning. *)
Definition replies (text : string)
  : Chat.Request → outcome (Chat.Response Chat.ChatReply) :=
  λ _, Returns
    {| Chat.ok := true;
       Chat.json_body :=
         Returns {| Chat.cr_response := text;
                    Chat.cr_error := Some (JBool false);
                    Chat.cr_tokensUsed := None;
                    Chat.cr_reasoning := None |} |}.

(** The chat endpoint answering [text] and reporting [tokens] tokens. *)
Definition metered (text : string) (tokens : Z)
  : Chat.Request → outcome (Chat.Response Chat.ChatReply) :=
  λ _, Returns
    {| Chat.ok := true;
       Chat.json_body :=
         Returns {| Chat.cr_response := text;
                    Chat.cr_error := None;
                    Chat.cr_tokensUsed := Some (JNum tokens);
                    Chat.cr_reasoning := None |} |}.

(** A workflow that puts out [text] without error. *)
Definition answers (text : string)
  : Route.WorkflowInput → outcome Route.WorkflowResult :=
  λ _, Returns {| Route.output_text := text;
                  Route.error := Some (JBool false) |}.

(** An answer of the workflow-run endpoint whose current run has no
    tool-call mapping. *)
Definition idle : Chat.Request → outcome (Chat.Response Chat.WorkflowRuns) :=
  λ _, Returns
    {| Chat.ok := true;
       Chat.json_body :=
         Returns {| Chat.current := Some {| Chat.toolCalls := None |};
                    Chat.previous := None |} |}.

(** A history endpoint that answers with [messages]. *)
Definition remembers (messages : list Chat.StoredMessage)
  : Chat.Request → outcome (Chat.Response Chat.History) :=
  λ _, Returns {| Chat.ok := true;
                  Chat.json_body :=
                    Returns {| Chat.h_messages := Some messages |} |}.

(** An endpoint that cannot be reached. *)
Definition offline {B} : Chat.Request → outcome (Chat.Response B) :=
  λ _, Throws.

(** A clock that stands still. *)
Definition noon : nat → Z := λ _, 1700000000000.

End Samples.

(** Unfolds [Chat.handleSubmit] and the setters it calls. *)
Ltac unfold_submit :=
  unfold Chat.handleSubmit, Chat.fetch, Chat.setShowWorkPlan,
    Chat.setMessages, Chat.setInput, Chat.setIsLoading, Chat.setError,
    Chat.setToolCallHistory, Chat.setProfile in *;
  run_eff.

(** ** Notions used by the statements *)

Module Notions.

(** A string that does not begin with white space. *)
Definition clean_start (s : string) : Prop :=
  match s with
  | String c _ => JS.is_white_space c = false
  | EmptyString => True
  end.

(** HTTP white space: TAB, LF, CR and SP. *)
Definition is_http_white_space (c : ascii) : bool :=
  let n := Ascii.N_of_ascii c in
  ((n =? 9) || (n =? 10) || (n =? 13) || (n =? 32))%N.

Definition http_clean_start (s : string) : Prop :=
  match s with
  | String c _ => is_http_white_space c = false
  | EmptyString => True
  end.

(** A string that [headers.get] can return: the value of a header comes
    without HTTP white space at either end. *)
Definition header_value (s : string) : Prop :=
  http_clean_start s ∧ http_clean_start (String.rev s).

(** [v === true] for a property that may be absent. *)
Definition strictly_true (v : option JS.json) : bool :=
  match v with
  | Some (JS.JBool true) => true
  | _ => false
  end.

End Notions.

(** * Properties *)

(** ** The embedding on concrete inputs *)

Example trim_Lead : JS.trim " Lead " = "Lead".
Proof. reflexivity. Qed.

Example normaliseRole_Lead :
  Workplan.normaliseRole (Some " Lead ") = Some "Lead"
  ∧ Workplan.normaliseRole (Some "  ") = None.
Proof. split; reflexivity. Qed.

Example replace_first_occurrence :
  JS.replace "Bearer " "" "Bearer abc" = "abc"
  ∧ JS.replace "Bearer " "" "xBearer aBearer b" = "xaBearer b"
  ∧ JS.replace "Bearer " "" "abc" = "abc".
Proof. split_and!; reflexivity. Qed.

Example sort_keeps_ties_in_order :
  JS.sort (Chat.byCreatedAt fst) [(2, "a"); (1, "b"); (2, "c"); (1, "d")]
  = [(1, "b"); (1, "d"); (2, "a"); (2, "c")].
Proof. reflexivity. Qed.

(** A merge: the known identity is dropped, the rest is sorted in, the
    current message first among equal instants. *)
Example merge_three :
  Chat.handleRealtimeMessages "u1" Samples.noon
    [Samples.stored (Some "x") 1; Samples.stored (Some "y") 5]
    [Samples.streamed (Some "z") 3; Samples.streamed (Some "x") 4;
     Samples.streamed None 5]
  = [Samples.stored (Some "x") 1;
     Chat.toStored "u1" Samples.noon 0 (Samples.streamed (Some "z") 3);
     Samples.stored (Some "y") 5;
     Chat.toStored "u1" Samples.noon 2 (Samples.streamed None 5)].
Proof. vm_compute. reflexivity. Qed.

(** Submitting ["hi"] when the chat endpoint answers ["hello"]: both
    messages are shown in order and one request has been sent. *)
Example submit_hi :
  let w' :=
    (Chat.handleSubmit "u1" (Some "tok") Samples.noon (Samples.replies "hello")
       Samples.offline Samples.offline
       (Samples.typing " hi " false [Samples.toolCall "get-event" 5])).2 in
  (λ m, (Chat.sm_role m, Chat.sm_content m)) <$> Chat.messages (Chat.panel w')
  = [("user", "hello"); ("user", "hi"); ("assistant", "hello")]
  ∧ Chat.sm_id <$> Chat.messages (Chat.panel w')
    = [Some "m1"; Some "1700000000000"; Some "1700000000000-assistant"]
  ∧ Chat.isLoading (Chat.panel w') = false
  ∧ Chat.toolCallHistory (Chat.panel w') = []
  ∧ length (Chat.sent w') = 1%nat.
Proof. vm_compute. done. Qed.

(** The route on ["hi"] when the workflow puts out ["hello"]: the answer is
    200 and both messages are stored. *)
Example POST_hi :
  let '(r, store) :=
    Route.POST (Samples.accepts "secret") Samples.noJwt (λ _, JS.Returns ())
      (λ _ _, false) (Samples.answers "hello") Samples.noon
      (Samples.request (Some "Bearer secret") Samples.chatBody) [] in
  r = JS.Returns {| Route.status := 200;
                 Route.body := JS.JObj [("response", JS.JStr "hello");
                                        ("error", JS.JBool false)] |}
  ∧ (λ m, (Route.role m, Route.content m)) <$> store
    = [("user", JS.JStr "hi"); ("assistant", JS.JStr "hello")].
Proof. vm_compute. done. Qed.

(** ** [Array.prototype.sort] with the comparator of the panel *)

Section sort_facts.
Context {A : Type} (key : A → Z).
Implicit Types (x : A) (l : list A).

Local Abbreviation cmp := (Chat.byCreatedAt key).

Lemma sort_insert_Permutation x l : JS.sort_insert cmp x l ≡ₚ x :: l.
Proof.
  induction l as [|y l IH]; simpl; [done|].
  case_decide; [done|].
  rewrite IH. apply perm_swap.
Qed.

Lemma sort_Permutation l : JS.sort cmp l ≡ₚ l.
Proof.
  induction l as [|x l IH]; simpl; [done|].
  by rewrite sort_insert_Permutation, IH.
Qed.

Lemma sort_insert_ascending x l :
  JS.ascending key l → JS.ascending key (JS.sort_insert cmp x l).
Proof.
  unfold JS.ascending, Chat.byCreatedAt.
  induction 1 as [|y l Hl IH Hy]; simpl.
  - repeat constructor.
  - case_decide as Hxy.
    + constructor; [by constructor|].
      constructor; [lia|].
      eapply Forall_impl; [exact Hy|]. simpl. intros z ?. lia.
    + constructor; [done|].
      rewrite sort_insert_Permutation.
      constructor; [lia|done].
Qed.

Lemma sort_ascending l : JS.ascending key (JS.sort cmp l).
Proof.
  induction l as [|x l IH]; simpl.
  - constructor.
  - by apply sort_insert_ascending.
Qed.

(** The sort is stable: elements of equal key keep their order. *)
Lemma sort_insert_stable k x l :
  JS.ascending key l →
  filter (λ a, key a = k) (JS.sort_insert cmp x l)
  = filter (λ a, key a = k) (x :: l).
Proof.
  unfold JS.ascending, Chat.byCreatedAt.
  induction 1 as [|y l Hl IH Hy]; simpl; [done|].
  case_decide as Hxy; [done|].
  rewrite !filter_cons in *.
  rewrite IH.
  destruct (decide (key x = k)), (decide (key y = k)); try done; lia.
Qed.

Lemma sort_stable l k :
  filter (λ a, key a = k) (JS.sort cmp l) = filter (λ a, key a = k) l.
Proof.
  induction l as [|x l IH]; simpl; [done|].
  rewrite sort_insert_stable by apply sort_ascending.
  by rewrite !filter_cons, IH.
Qed.

(** Sorting what is sorted changes nothing. *)
Lemma sort_of_ascending l : JS.ascending key l → JS.sort cmp l = l.
Proof.
  unfold JS.ascending, Chat.byCreatedAt.
  induction 1 as [|x l Hl IH Hx]; simpl; [done|].
  rewrite IH. destruct Hx as [|y l Hxy _]; simpl; [done|].
  by rewrite decide_True by lia.
Qed.
End sort_facts.

(** ** The conversation merge *)

Section merge_facts.
Import JS Chat.
Context (userId : string) (clock : nat → Z).
Implicit Types (prev next : list StoredMessage) (incoming : list ChatMessage)
  (msg : StoredMessage) (i : string).

Lemma truthy_Some (o : option string) :
  truthy o = true ↔ ∃ i, o = Some i ∧ i ≠ "".
Proof.
  destruct o as [s|]; simpl; unfold truthy_string.
  - case_decide as Hs; split.
    + done.
    + intros (i & [= <-] & Hne). done.
    + intros _. by exists s.
    + done.
  - split; [done|]. by intros (i & ? & _).
Qed.

Lemma elem_of_filter_Boolean (xs : list (option string)) i :
  i ∈ filter_Boolean xs ↔ i ≠ "" ∧ Some i ∈ xs.
Proof.
  unfold filter_Boolean. rewrite list_elem_of_omap. split.
  - intros (o & Ho & Hi). destruct (truthy o) eqn:Ht; [|done]. subst o.
    apply truthy_Some in Ht as (j & [= <-] & ?). done.
  - intros [Hne Hin]. exists (Some i). split; [done|].
    simpl. unfold truthy_string. by rewrite decide_False.
Qed.

Lemma filter_Boolean_sublist (xs ys : list (option string)) :
  xs `sublist_of` ys → filter_Boolean xs `sublist_of` filter_Boolean ys.
Proof.
  unfold filter_Boolean.
  induction 1 as [|o xs ys _ IH|o xs ys _ IH]; simpl.
  - constructor.
  - destruct (if truthy o then o else None); [by constructor|done].
  - destruct (if truthy o then o else None); [by constructor|done].
Qed.

Lemma filter_none {B} (P : B → Prop) `{!∀ x, Decision (P x)} (l : list B) :
  (∀ x, x ∈ l → ¬ P x) → filter P l = [].
Proof.
  induction l as [|x l IH]; intros Hl; [done|].
  rewrite filter_cons, decide_False by (apply Hl; left).
  apply IH. intros y Hy. apply Hl. by right.
Qed.

Lemma elem_of_identities prev i :
  i ∈ identities prev ↔ i ≠ "" ∧ ∃ msg, msg ∈ prev ∧ sm_id msg = Some i.
Proof.
  unfold identities. rewrite elem_of_filter_Boolean, list_elem_of_fmap.
  split.
  - intros [Hne (msg & Hid & Hmsg)]. eauto.
  - intros [Hne (msg & Hmsg & Hid)]. eauto.
Qed.

Lemma identities_app prev next :
  identities (prev ++ next) = identities prev ++ identities next.
Proof. unfold identities, filter_Boolean. by rewrite fmap_app, omap_app. Qed.

Lemma identities_Permutation prev next :
  prev ≡ₚ next → identities prev ≡ₚ identities next.
Proof. unfold identities, filter_Boolean. by intros ->. Qed.

Lemma identities_filter (P : StoredMessage → Prop) `{!∀ m, Decision (P m)} prev :
  identities (filter P prev) `sublist_of` identities prev.
Proof.
  unfold identities. apply filter_Boolean_sublist.
  apply fmap_sublist, sublist_filter.
Qed.

(** The mapping keeps the identity of every incoming message. *)
Lemma sm_id_imap (f : nat → ChatMessage → StoredMessage) incoming :
  (∀ n m, sm_id (f n m) = cm_id m) →
  sm_id <$> imap f incoming = cm_id <$> incoming.
Proof.
  revert f. induction incoming as [|m incoming IH]; intros f Hf; [done|].
  rewrite imap_cons, !fmap_cons, Hf. f_equal. apply IH. intros n m'. apply Hf.
Qed.

Lemma identities_mapped incoming :
  identities (mapped userId clock incoming)
  = filter_Boolean (cm_id <$> incoming).
Proof. unfold identities, mapped. by rewrite sm_id_imap. Qed.

(** A message is filtered out exactly when its identity is non-empty and
    among the identities of the current list. *)
Lemma survives_false prev msg :
  survives (existingIds prev) msg = false
  ↔ ∃ i, sm_id msg = Some i ∧ i ≠ "" ∧ i ∈ identities prev.
Proof.
  unfold survives, existingIds, has.
  rewrite orb_false_iff, !negb_false_iff, truthy_Some. split.
  - intros [(i & Hi & Hne) Hhas]. exists i. rewrite Hi in Hhas.
    apply bool_decide_eq_true, elem_of_list_to_set in Hhas. done.
  - intros (i & Hi & Hne & Hin). split; [by exists i|].
    rewrite Hi. by apply bool_decide_eq_true, elem_of_list_to_set.
Qed.

Lemma handleRealtimeMessages_Permutation prev incoming :
  handleRealtimeMessages userId clock prev incoming
  ≡ₚ prev ++ deduped userId clock prev incoming.
Proof.
  unfold handleRealtimeMessages.
  case_decide as Hin.
  - apply nil_length_inv in Hin. subst. unfold deduped, mapped. simpl.
    by rewrite app_nil_r.
  - case_decide as Hde.
    + apply nil_length_inv in Hde. by rewrite Hde, app_nil_r.
    + apply sort_Permutation.
Qed.

Lemma handleRealtimeMessages_ascending prev incoming :
  ascending sm_createdAt prev ∨ deduped userId clock prev incoming ≠ [] →
  ascending sm_createdAt (handleRealtimeMessages userId clock prev incoming).
Proof.
  intros Hprev. unfold handleRealtimeMessages.
  case_decide as Hin.
  - apply nil_length_inv in Hin. subst incoming.
    by destruct Hprev as [Hprev | Hkept].
  - case_decide as Hde; [|apply sort_ascending].
    apply nil_length_inv in Hde.
    by destruct Hprev as [Hprev | Hkept].
Qed.

Lemma handleRealtimeMessages_NoDup prev incoming :
  NoDup (identities prev) →
  NoDup (filter_Boolean (cm_id <$> incoming)) →
  NoDup (identities (handleRealtimeMessages userId clock prev incoming)).
Proof.
  intros Hprev Hinc.
  rewrite (identities_Permutation _ _
             (handleRealtimeMessages_Permutation prev incoming)).
  rewrite identities_app. apply NoDup_app. split_and!.
  - done.
  - intros i Hi Hd. unfold deduped in Hd.
    apply elem_of_identities in Hd as (Hne & msg & Hmsg & Hid).
    apply list_elem_of_filter in Hmsg as [Hs _].
    apply Is_true_true in Hs.
    assert (survives (existingIds prev) msg = false) as Hf; [|congruence].
    apply survives_false. eauto.
  - eapply sublist_NoDup; [|apply identities_filter].
    by rewrite identities_mapped.
Qed.
End merge_facts.

(** ** The specification of the conversation merge *)

Section merge_spec.
Import JS Chat.

(** C1, as amended.  For every current list and every batch, the merge
    holds exactly the current messages and the incoming messages that
    survive the filter; an incoming message is filtered out exactly when it
    carries a non-empty identity that is already in the current list, so a
    message without an identity always gets in.  When the current list is
    sorted ascending by creation time, or some incoming message survives the
    filter, the result is sorted ascending by creation time.  When the
    non-empty identities of the current list are unique and those of the
    batch are pairwise distinct, the non-empty identities of the result are
    unique. *)
Theorem handleRealtimeMessages_merge (userId : string) (clock : nat → Z)
    (prev : list StoredMessage) (incoming : list ChatMessage) :
  let next := handleRealtimeMessages userId clock prev incoming in
  let kept := deduped userId clock prev incoming in
  next ≡ₚ prev ++ kept
  ∧ (∀ msg, msg ∈ mapped userId clock incoming →
       msg ∉ kept ↔ ∃ i, sm_id msg = Some i ∧ i ≠ "" ∧ i ∈ identities prev)
  ∧ (∀ msg, msg ∈ mapped userId clock incoming →
       truthy (sm_id msg) = false → msg ∈ next)
  ∧ (ascending sm_createdAt prev ∨ kept ≠ [] → ascending sm_createdAt next)
  ∧ (NoDup (identities prev) →
     NoDup (filter_Boolean (cm_id <$> incoming)) →
     NoDup (identities next)).
Proof.
  intros next kept.
  assert (∀ msg, msg ∈ mapped userId clock incoming →
            msg ∉ kept ↔ survives (existingIds prev) msg = false) as Hkept.
  { intros msg Hmsg. unfold kept, deduped.
    rewrite list_elem_of_filter, <-Is_true_false. tauto. }
  split_and!.
  - apply handleRealtimeMessages_Permutation.
  - intros msg Hmsg. by rewrite Hkept, survives_false.
  - intros msg Hmsg Hid. unfold next.
    rewrite handleRealtimeMessages_Permutation.
    apply elem_of_app. right. unfold deduped.
    apply list_elem_of_filter. split; [|done].
    unfold survives. by rewrite Hid.
  - apply handleRealtimeMessages_ascending.
  - apply handleRealtimeMessages_NoDup.
Qed.

(** C6.  A batch in which every message carries a non-empty identity that
    is already in the current list leaves the current list as it is. *)
Theorem handleRealtimeMessages_idempotent (userId : string) (clock : nat → Z)
    (prev : list StoredMessage) (incoming : list ChatMessage) :
  Forall (λ m, ∃ i, cm_id m = Some i ∧ i ≠ "" ∧ i ∈ identities prev) incoming →
  handleRealtimeMessages userId clock prev incoming = prev.
Proof.
  intros Hall. unfold handleRealtimeMessages.
  case_decide; [done|].
  rewrite decide_True; [done|].
  unfold deduped. rewrite filter_none; [done|].
  intros msg Hmsg Hs.
  apply Is_true_true in Hs.
  assert (survives (existingIds prev) msg = false) as Hf; [|congruence].
  apply survives_false.
  apply elem_of_lookup_imap in Hmsg as (n & m & -> & Hm).
  apply list_elem_of_lookup_2 in Hm.
  rewrite Forall_forall in Hall. by apply Hall.
Qed.

(** C1 at a sorted list with unique identities and a batch of one new
    message, one known message and one message without identity. *)
Lemma handleRealtimeMessages_merge_witness :
  let prev := [Samples.stored (Some "x") 1; Samples.stored (Some "y") 5] in
  let incoming :=
    [Samples.streamed (Some "z") 3; Samples.streamed (Some "x") 4;
     Samples.streamed None 2] in
  let next := handleRealtimeMessages "u1" Samples.noon prev incoming in
  ascending sm_createdAt next ∧ NoDup (identities next).
Proof.
  intros prev incoming next.
  destruct (handleRealtimeMessages_merge "u1" Samples.noon prev incoming)
    as (_ & _ & _ & Hsorted & Hunique).
  split.
  - apply Hsorted. left. unfold ascending.
    apply (bool_decide_unpack _). vm_compute. exact I.
  - apply Hunique; apply (bool_decide_unpack _); vm_compute; exact I.
Defined.

(** C1 as stated fails.  Two incoming messages that share a new identity
    both get in; and when the whole batch is filtered out the current list
    is returned as it is, sorted or not. *)
Lemma handleRealtimeMessages_merge_counterexample :
  ¬ NoDup (identities
             (handleRealtimeMessages "u1" Samples.noon []
                [Samples.streamed (Some "a") 1; Samples.streamed (Some "a") 2]))
  ∧ ¬ ascending sm_createdAt
        (handleRealtimeMessages "u1" Samples.noon
           [Samples.stored (Some "x") 5; Samples.stored (Some "y") 1]
           [Samples.streamed (Some "x") 7]).
Proof.
  split.
  - intros H. apply (bool_decide_pack _) in H. vm_compute in H. exact H.
  - unfold ascending. intros H. apply (bool_decide_pack _) in H.
    vm_compute in H. exact H.
Qed.

(** C6 at a batch of two known identities. *)
Lemma handleRealtimeMessages_idempotent_witness :
  let prev := [Samples.stored (Some "x") 5; Samples.stored (Some "y") 1] in
  handleRealtimeMessages "u1" Samples.noon prev
    [Samples.streamed (Some "y") 7; Samples.streamed (Some "x") 9] = prev.
Proof.
  intros prev. apply handleRealtimeMessages_idempotent.
  repeat apply Forall_cons_2; [..|apply Forall_nil_2].
  - exists "y". split_and!; [done..|]. vm_compute. set_solver.
  - exists "x". split_and!; [done..|]. vm_compute. set_solver.
Defined.
End merge_spec.

(** ** The workflow-run poll and the submit guard *)

Section panel_spec.
Import JS Chat.

Lemma copyCall_id (call : ToolCall) : copyCall call = call.
Proof. by destruct call. Qed.

Lemma toolCallsArray_values (calls : list (string * ToolCall)) :
  toolCallsArray calls = sort (byCreatedAt tc_createdAt) (snd <$> calls).
Proof.
  unfold toolCallsArray. f_equal.
  induction (snd <$> calls) as [|c l IH]; [done|].
  by rewrite fmap_cons, copyCall_id, IH.
Qed.

(** The world a poll leaves behind when it is answered and the selected run
    has a tool-call mapping. *)
Lemma pollWorkflowRuns_answered (token : option string)
    (workflowRuns : Request → outcome (Response WorkflowRuns))
    (isLoading : bool) (w : World)
    (response : Response WorkflowRuns) (data : WorkflowRuns)
    (run : WorkflowRun) (calls : list (string * ToolCall)) :
  workflowRuns (workflowRunsRequest token) = Returns response →
  ok response = true →
  json_body response = Returns data →
  (if isLoading then current data else previous data) = Some run →
  toolCalls run = Some calls →
  pollWorkflowRuns token workflowRuns isLoading w
  = (Returns (),
     {| panel :=
          {| messages := messages (panel w); input := input (panel w);
             Chat.isLoading := Chat.isLoading (panel w);
             error := error (panel w); profile := profile (panel w);
             toolCallHistory := toolCallsArray calls;
             showWorkPlan := showWorkPlan (panel w) |};
        sent := sent w ++ [workflowRunsRequest token] |}).
Proof.
  intros Hfetch Hok Hjson Hrun Hcalls.
  unfold pollWorkflowRuns, fetch, workflowToDisplay, setToolCallHistory.
  run_eff. rewrite Hfetch, Hok, Hjson, Hrun. simpl. by rewrite Hcalls.
Qed.

(** C9.  When the poll is answered and the run it selects ([current] while a
    request is in flight, [previous] otherwise) has a tool-call mapping, the
    displayed history becomes the values of the mapping, sorted ascending by
    creation time, whatever was displayed before: the new history is the
    stable sort of the values, it holds exactly the values of the mapping,
    and nothing else of the panel changes. *)
Theorem pollWorkflowRuns_replaces (token : option string)
    (workflowRuns : Request → outcome (Response WorkflowRuns))
    (isLoading : bool) (w : World)
    (response : Response WorkflowRuns) (data : WorkflowRuns)
    (run : WorkflowRun) (calls : list (string * ToolCall)) :
  workflowRuns (workflowRunsRequest token) = Returns response →
  ok response = true →
  json_body response = Returns data →
  (if isLoading then current data else previous data) = Some run →
  toolCalls run = Some calls →
  let w' := (pollWorkflowRuns token workflowRuns isLoading w).2 in
  let history := toolCallHistory (panel w') in
  history = sort (byCreatedAt tc_createdAt) (snd <$> calls)
  ∧ ascending tc_createdAt history
  ∧ history ≡ₚ snd <$> calls
  ∧ (∀ call, call ∈ history ↔ call ∈ snd <$> calls)
  ∧ messages (panel w') = messages (panel w)
  ∧ input (panel w') = input (panel w)
  ∧ Chat.isLoading (panel w') = Chat.isLoading (panel w)
  ∧ error (panel w') = error (panel w)
  ∧ profile (panel w') = profile (panel w)
  ∧ showWorkPlan (panel w') = showWorkPlan (panel w).
Proof.
  intros Hfetch Hok Hjson Hrun Hcalls w' history.
  unfold history, w'.
  rewrite (pollWorkflowRuns_answered _ _ _ _ _ _ _ _
             Hfetch Hok Hjson Hrun Hcalls).
  simpl. rewrite toolCallsArray_values.
  split_and!; try done.
  - apply sort_ascending.
  - apply sort_Permutation.
  - intros call. by rewrite sort_Permutation.
Qed.

(** C10.  When the input is empty after trimming, or a request is in
    flight, [handleSubmit] returns at once: the panel (messages, input,
    loading flag, tool-call history, error and the rest) is as before and
    nothing is handed to [fetch]. *)
Theorem handleSubmit_guard (userId : string) (token : option string)
    (clock : nat → Z)
    (chat : Request → outcome (Response ChatReply))
    (usage userProfile : Request → outcome (Response json)) (w : World) :
  trim (input (panel w)) = "" ∨ isLoading (panel w) = true →
  handleSubmit userId token clock chat usage userProfile w = (Returns (), w).
Proof.
  intros Hguard. unfold handleSubmit. run_eff.
  destruct Hguard as [-> | ->]; simpl; [done|].
  by rewrite orb_true_r.
Qed.

(** C9 at a mapping of two calls that replaces a history of one. *)
Lemma pollWorkflowRuns_replaces_witness :
  let calls := [("b", Samples.toolCall "list-events" 20);
                ("a", Samples.toolCall "get-current-time" 10)] in
  let w := Samples.typing "" true [Samples.toolCall "get-event" 5] in
  toolCallHistory (panel (pollWorkflowRuns None (Samples.running calls) true w).2)
  = [Samples.toolCall "get-current-time" 10; Samples.toolCall "list-events" 20].
Proof.
  intros calls w.
  destruct (pollWorkflowRuns_replaces None (Samples.running calls) true w
              _ _ _ calls eq_refl eq_refl eq_refl eq_refl eq_refl) as [-> _].
  reflexivity.
Defined.

(** C10 at a blank input, and at a request in flight. *)
Lemma handleSubmit_guard_witness :
  let blank := Samples.typing "   " false [] in
  let busy := Samples.typing "hello" true [] in
  handleSubmit "u1" None Samples.noon Samples.offline Samples.offline
    Samples.offline blank = (Returns (), blank)
  ∧ handleSubmit "u1" None Samples.noon Samples.offline Samples.offline
      Samples.offline busy = (Returns (), busy).
Proof.
  intros blank busy. split.
  - apply handleSubmit_guard. left. reflexivity.
  - apply handleSubmit_guard. right. reflexivity.
Defined.
End panel_spec.

(** ** The workplan panel *)

Section workplan_facts.
Import JS Workplan.
Implicit Types (items mocks : list WorkplanEntry) (prev : gmap string string)
  (k : string) (st : State).

(** What the seeding leaves under every key. *)
Lemma seedDrafts_lookup items prev k :
  seedDrafts items prev !! k
  = match prev !! k with
    | Some v => Some v
    | None => if inherited k then None else seedOf <$> firstWith k items
    end.
Proof.
  unfold seedDrafts, firstWith.
  revert prev. induction items as [|item items IH]; intros prev; simpl.
  - destruct (prev !! k), (inherited k); done.
  - rewrite IH. clear IH. rewrite filter_cons.
    unfold is_undefined, assign.
    destruct (prev !! ev_id (event item)) as [v|] eqn:Hid; simpl.
    + destruct (prev !! k) eqn:Hk; [done|].
      rewrite decide_False; [done|]. intros Heq. rewrite Heq in Hid. congruence.
    + destruct (inherited (ev_id (event item))) eqn:Hin; simpl.
      * destruct (prev !! k) eqn:Hk; [done|].
        destruct (inherited k) eqn:Hink; [done|].
        rewrite decide_False; [done|]. intros Heq. rewrite Heq in Hid. congruence.
      * rewrite decide_False.
        2:{ intros Hp. rewrite Hp in Hin. vm_compute in Hin. done. }
        destruct (decide (ev_id (event item) = k)) as [Heq|Hne].
        -- rewrite Heq in *. rewrite lookup_insert_eq, Hid, Hin. done.
        -- rewrite lookup_insert_ne by done. done.
Qed.

End workplan_facts.

Section workplan_spec.
Import JS Workplan.

(** C3, as amended.  Editing the draft of an event sets the draft of that
    event to the text typed and, in the same step, sets the role of every
    entry of that event to the normalised text.  The drafts of other events,
    the other entries, the other fields of the entry and the rest of the
    panel stay as they are. *)
Theorem handleRoleChange_effect (eventId value : string) (st : State) :
  let st' := (handleRoleChange eventId value st).2 in
  roleDrafts st' !! eventId = Some value
  ∧ (∀ k, k ≠ eventId → roleDrafts st' !! k = roleDrafts st !! k)
  ∧ length (workplans st') = length (workplans st)
  ∧ (∀ n item, workplans st !! n = Some item →
       ∃ item', workplans st' !! n = Some item'
         ∧ event item' = event item ∧ status item' = status item
         ∧ steps item' = steps item
         ∧ lastGeneratedAt item' = lastGeneratedAt item
         ∧ entry_error item' = entry_error item
         ∧ role item' = if decide (ev_id (event item) = eventId)
                        then normaliseRole (Some value) else role item)
  ∧ loadingList st' = loadingList st
  ∧ regenerating st' = regenerating st
  ∧ selectedId st' = selectedId st
  ∧ error st' = error st.
Proof.
  unfold handleRoleChange, setRoleDrafts, setWorkplans. run_eff.
  split_and!; try done.
  - apply lookup_insert_eq.
  - intros k Hk. by rewrite lookup_insert_ne.
  - apply length_fmap.
  - intros n item Hn. rewrite list_lookup_fmap, Hn. simpl.
    eexists. split; [done|].
    by destruct (decide (ev_id (event item) = eventId)).
Qed.

(** C3 at an entry with the role ["Lead"] and the text [" Developer "]. *)
Lemma handleRoleChange_effect_witness :
  let st :=
    Samples.shows [Samples.entry "evt-1" (Some "Lead");
                   Samples.entry "evt-2" (Some "Guest")]
      {["evt-2" := "Guest"]} in
  let st' := (handleRoleChange "evt-1" " Developer " st).2 in
  roleDrafts st' !! "evt-2" = Some "Guest"
  ∧ ∃ item', workplans st' !! 0%nat = Some item'
      ∧ role item' = Some "Developer".
Proof.
  intros st st'.
  destruct (handleRoleChange_effect "evt-1" " Developer " st)
    as (_ & Hdrafts & _ & Hentries & _).
  split.
  - unfold st'. rewrite Hdrafts; [reflexivity|discriminate].
  - destruct (Hentries 0%nat (Samples.entry "evt-1" (Some "Lead")) eq_refl)
      as (item' & Hitem & _ & _ & _ & _ & _ & Hrole).
    exists item'. split; [exact Hitem|exact Hrole].
Defined.

(** C3 as stated fails: typing a draft changes the role of the entry at
    once, before any regeneration. *)
Lemma handleRoleChange_counterexample :
  let st :=
    Samples.shows [Samples.entry "evt-1" (Some "Lead")] {["evt-1" := "Lead"]} in
  let st' := (handleRoleChange "evt-1" "Developer" st).2 in
  role <$> workplans st = [Some "Lead"]
  ∧ role <$> workplans st' = [Some "Developer"].
Proof. split; reflexivity. Qed.

(** C8.  When the fetch is answered with no entry (and the panel is still
    mounted), the panel shows the mock set and selects the identity of its
    first entry. *)
Theorem load_empty_shows_mocks (mocks : list WorkplanEntry)
    (fetched : outcome Response) (st : State) :
  arrival fetched = Some [] →
  let st' := (load mocks fetched false st).2 in
  workplans st' = mocks
  ∧ selectedId st' = firstId mocks
  ∧ (∀ first rest, mocks = first :: rest →
       selectedId st' = Some (ev_id (event first))).
Proof.
  intros Harr st'.
  assert (workplans st' = mocks ∧ selectedId st' = firstId mocks) as [Hw Hs].
  { unfold st', load, showMocks, setWorkplans, setRoleDrafts, setSelectedId,
      setError, setLoadingList.
    unfold arrival in Harr. run_eff.
    destruct fetched as [[[] [data|]]|]; simpl in *; try done.
    injection Harr as ->. done. }
  split_and!; [done..|].
  intros first rest ->. by rewrite Hs.
Qed.

(** C8 at an answer without entries and a mock set of two. *)
Lemma load_empty_shows_mocks_witness :
  let mocks := [Samples.entry "mock-1" (Some "Lead"); Samples.entry "mock-2" None] in
  let st' := (load mocks (Samples.answer []) false (Samples.shows [] ∅)).2 in
  workplans st' = mocks ∧ selectedId st' = Some "mock-1".
Proof.
  intros mocks st'.
  destruct (load_empty_shows_mocks mocks (Samples.answer [])
              (Samples.shows [] ∅) eq_refl) as (Hw & _ & Hs).
  split; [exact Hw|].
  exact (Hs (Samples.entry "mock-1" (Some "Lead"))
            [Samples.entry "mock-2" None] eq_refl).
Defined.
End workplan_spec.

(** ** The chat ingress *)

Section route_spec.
Import JS Route.
Context (verifyTelegramServerToken : string → outcome bool)
        (jwtVerify : string → outcome unit)
        (getUserById : json → outcome unit)
        (insertMessage_throws : Store → Message → bool)
        (runWorkflow : WorkflowInput → outcome WorkflowResult)
        (clock : nat → Z).

Local Abbreviation POST :=
  (Route.POST verifyTelegramServerToken jwtVerify getUserById
     insertMessage_throws runWorkflow clock).
Local Abbreviation process :=
  (Route.process getUserById insertMessage_throws runWorkflow clock).

(** A request whose token is accepted goes on to the processing steps; what
    they throw becomes the answer 500. *)
Lemma POST_accepted (req : NextRequest) (header : string) (store : Store) :
  authorization req = Some header →
  bearerToken header ≠ "" →
  verifyTelegramServerToken (bearerToken header) = Returns true
  ∨ jwtVerify (bearerToken header) = Returns () →
  POST req store
  = match process req store with
    | (Returns r, store') => (Returns r, store')
    | (Throws, store') =>
        (Returns {| status := 500;
                    body := JObj [("error", JStr "Failed to process message")] |},
         store')
    end.
Proof.
  intros Hauth Htoken Hvalid. unfold Route.POST, unauthorized, json_response.
  run_eff. rewrite Hauth. simpl.
  unfold truthy_string. rewrite decide_False by done. simpl.
  destruct (verifyTelegramServerToken (bearerToken header)) as [[]|] eqn:Hv;
    simpl.
  - by destruct (process req store) as [[] ?].
  - destruct Hvalid as [|Hj]; [done|]. rewrite Hj. simpl.
    by destruct (process req store) as [[] ?].
  - destruct Hvalid as [|Hj]; [done|]. rewrite Hj. simpl.
    by destruct (process req store) as [[] ?].
Qed.

(** C2.  A request without [Authorization] header, or with a token that
    neither check accepts, is answered 401 and nothing is stored. *)
Theorem POST_unauthorized (req : NextRequest) (store : Store) :
  authorization req = None
  ∨ (∃ header, authorization req = Some header
       ∧ verifyTelegramServerToken (bearerToken header) ≠ Returns true
       ∧ jwtVerify (bearerToken header) = Throws) →
  ∃ body, POST req store = (Returns {| status := 401; body := body |}, store).
Proof.
  unfold Route.POST, unauthorized, json_response. run_eff.
  intros [-> | (header & -> & Hv & Hj)]; simpl; [by eexists|].
  destruct (truthy_string (bearerToken header)); simpl; [|by eexists].
  destruct (verifyTelegramServerToken (bearerToken header)) as [[]|];
    simpl; [done| |]; rewrite Hj; simpl; by eexists.
Qed.

(** C7, as amended.  A request whose token is accepted and whose body
    parses to a JSON value other than [null], and lacks [message] or
    [userId] (the property is absent or the empty string), is answered 400
    and nothing is stored. *)
Theorem POST_missing_field (req : NextRequest) (header : string)
    (parsed : json) (store : Store) :
  authorization req = Some header →
  bearerToken header ≠ "" →
  verifyTelegramServerToken (bearerToken header) = Returns true
  ∨ jwtVerify (bearerToken header) = Returns () →
  json_body req = Returns parsed →
  parsed ≠ JNull →
  missing (property "message" parsed) ∨ missing (property "userId" parsed) →
  POST req store
  = (Returns {| status := 400;
                body := JObj [("error", JStr "Message and userId are required")] |},
     store).
Proof.
  intros Hauth Htoken Hvalid Hbody Hnull Hmissing.
  rewrite (POST_accepted req header store Hauth Htoken Hvalid).
  unfold Route.process, json_response. run_eff. rewrite Hbody. simpl.
  assert (destructure parsed
          = Returns (property "message" parsed, property "userId" parsed))
    as -> by by destruct parsed.
  simpl.
  destruct Hmissing as [[-> | ->] | [-> | ->]]; simpl;
    rewrite ?orb_true_r; done.
Qed.

(** C5.  Once the message of the user is stored, a workflow that throws, or
    a second [insertMessage] that throws, is answered 500 and the message of
    the user stays stored. *)
Theorem POST_no_rollback (req : NextRequest) (header : string) (parsed : json)
    (message userId : option json) (store : Store) :
  authorization req = Some header →
  bearerToken header ≠ "" →
  verifyTelegramServerToken (bearerToken header) = Returns true
  ∨ jwtVerify (bearerToken header) = Returns () →
  json_body req = Returns parsed →
  destructure parsed = Returns (message, userId) →
  truthy_json message = true →
  truthy_json userId = true →
  getUserById (value userId) = Returns () →
  insertMessage_throws store (inboundMessage clock message userId) = false →
  runWorkflow (workflowInput message userId) = Throws
  ∨ (∃ workflowResult,
       runWorkflow (workflowInput message userId) = Returns workflowResult
       ∧ insertMessage_throws
           (store ++ [inboundMessage clock message userId])
           (outboundMessage clock userId workflowResult) = true) →
  POST req store
  = (Returns {| status := 500;
                body := JObj [("error", JStr "Failed to process message")] |},
     store ++ [inboundMessage clock message userId]).
Proof.
  intros Hauth Htoken Hvalid Hbody Hparsed Hm Hu Huser Hfirst Hlater.
  rewrite (POST_accepted req header store Hauth Htoken Hvalid).
  unfold Route.process, insertMessage, json_response. run_eff.
  rewrite Hbody. simpl. rewrite Hparsed. simpl. rewrite Hm, Hu. simpl.
  rewrite Huser. simpl. rewrite Hfirst. simpl.
  destruct Hlater as [-> | (workflowResult & -> & ->)]; done.
Qed.
End route_spec.

Section route_witnesses.
Import JS Route.

(** C2 at a token that neither check accepts. *)
Lemma POST_unauthorized_witness :
  ∃ body,
    POST (Samples.accepts "secret") Samples.noJwt (λ _, Returns ())
      (λ _ _, false) (λ _, Throws) Samples.noon
      (Samples.request (Some "Bearer wrong") Samples.chatBody) []
    = (Returns {| status := 401; body := body |}, []).
Proof.
  apply POST_unauthorized. right. exists "Bearer wrong".
  split_and!; [reflexivity| |reflexivity].
  vm_compute. discriminate.
Defined.

(** C7 as stated fails: the body [null] has neither [message] nor
    [userId], yet taking it apart throws and the answer is 500. *)
Lemma POST_missing_field_counterexample :
  let req := Samples.request (Some "Bearer secret") JNull in
  Samples.accepts "secret" (bearerToken "Bearer secret") = Returns true
  ∧ missing (property "message" JNull)
  ∧ missing (property "userId" JNull)
  ∧ POST (Samples.accepts "secret") Samples.noJwt (λ _, Returns ())
      (λ _ _, false) (Samples.answers "hello") Samples.noon req []
    = (Returns {| status := 500;
                  body := JObj [("error", JStr "Failed to process message")] |},
       []).
Proof. split_and!; [reflexivity|by left|by left|reflexivity]. Qed.

(** C7 at a body without [userId]. *)
Lemma POST_missing_field_witness :
  POST (Samples.accepts "secret") Samples.noJwt (λ _, Returns ())
    (λ _ _, false) (λ _, Throws) Samples.noon
    (Samples.request (Some "Bearer secret") (JObj [("message", JStr "hi")])) []
  = (Returns {| status := 400;
                body := JObj [("error", JStr "Message and userId are required")] |},
     []).
Proof.
  apply (POST_missing_field _ _ _ _ _ _ _ "Bearer secret"
           (JObj [("message", JStr "hi")])).
  - reflexivity.
  - vm_compute. discriminate.
  - left. reflexivity.
  - reflexivity.
  - discriminate.
  - right. left. reflexivity.
Defined.

(** C5 at a workflow that throws after the message of the user is stored. *)
Lemma POST_no_rollback_witness :
  POST (Samples.accepts "secret") Samples.noJwt (λ _, Returns ())
    (λ _ _, false) (λ _, Throws) Samples.noon
    (Samples.request (Some "Bearer secret") Samples.chatBody) []
  = (Returns {| status := 500;
                body := JObj [("error", JStr "Failed to process message")] |},
     [inboundMessage Samples.noon (Some (JStr "hi")) (Some (JStr "u1"))]).
Proof.
  apply (POST_no_rollback _ _ _ _ _ _ _ "Bearer secret" Samples.chatBody
           (Some (JStr "hi")) (Some (JStr "u1")) []).
  - reflexivity.
  - vm_compute. discriminate.
  - left. reflexivity.
  - reflexivity.
  - reflexivity.
  - reflexivity.
  - reflexivity.
  - reflexivity.
  - reflexivity.
  - left. reflexivity.
Defined.
End route_witnesses.

(** * Further properties of the code *)

(** ** Strings: [trim] and [replace] *)

Section string_facts.
Import JS Notions.
Implicit Types (s t : string) (c : ascii).

Lemma append_cons c s t : String c s +:+ t = String c (s +:+ t).
Proof. reflexivity. Qed.

Lemma append_assoc s t u : (s +:+ t) +:+ u = s +:+ (t +:+ u).
Proof.
  induction s as [|c s IH]; [done|]. rewrite !append_cons. f_equal. exact IH.
Qed.

Lemma append_empty_r s : s +:+ "" = s.
Proof.
  induction s as [|c s IH]; [done|]. rewrite append_cons. f_equal. exact IH.
Qed.

Lemma rev_app_append s t : String.rev_app s t = String.rev s +:+ t.
Proof.
  unfold String.rev. revert t.
  induction s as [|c s IH]; intros t; simpl; [done|].
  rewrite (IH (String c t)), (IH (String c "")), append_assoc. done.
Qed.

Lemma rev_cons c s : String.rev (String c s) = String.rev s +:+ String c "".
Proof. unfold String.rev at 1. simpl. apply rev_app_append. Qed.

Lemma rev_append s t : String.rev (s +:+ t) = String.rev t +:+ String.rev s.
Proof.
  induction s as [|c s IH].
  - by rewrite append_empty_r.
  - by rewrite append_cons, !rev_cons, IH, append_assoc.
Qed.

Lemma rev_involutive s : String.rev (String.rev s) = s.
Proof.
  induction s as [|c s IH]; [done|].
  by rewrite rev_cons, rev_append, IH.
Qed.

Lemma trimStart_clean s : clean_start (trimStart s).
Proof.
  induction s as [|c s IH]; simpl; [done|].
  destruct (is_white_space c) eqn:Hc; [done|]. simpl. done.
Qed.

Lemma trimStart_of_clean s : clean_start s → trimStart s = s.
Proof. destruct s as [|c s]; simpl; [done|]. by intros ->. Qed.

Lemma trimStart_snoc s c :
  is_white_space c = false →
  trimStart (s +:+ String c "") = trimStart s +:+ String c "".
Proof.
  intros Hc. induction s as [|d s IH].
  - simpl. by rewrite Hc.
  - rewrite append_cons. simpl. destruct (is_white_space d); [done|].
    by rewrite append_cons.
Qed.

Lemma trimEnd_clean s : clean_start s → clean_start (trimEnd s).
Proof.
  destruct s as [|c s]; simpl; [done|]. intros Hc.
  unfold trimEnd. rewrite rev_cons, trimStart_snoc, rev_append by done.
  done.
Qed.

Lemma trimEnd_idempotent s : trimEnd (trimEnd s) = trimEnd s.
Proof.
  unfold trimEnd. rewrite rev_involutive.
  by rewrite (trimStart_of_clean _ (trimStart_clean _)).
Qed.

Lemma trim_idempotent s : trim (trim s) = trim s.
Proof.
  unfold trim.
  rewrite (trimStart_of_clean (trimEnd (trimStart s))).
  - apply trimEnd_idempotent.
  - apply trimEnd_clean, trimStart_clean.
Qed.

(** [replace] takes the pattern off the front of a string. *)
Lemma prefix_append s t : String.prefix s (s +:+ t) = true.
Proof.
  induction s as [|c s IH]; [by destruct t|].
  rewrite append_cons. simpl.
  destruct (ascii_dec c c); [done|congruence].
Qed.

Lemma substring_append s t :
  String.substring (String.length s)
    (String.length (s +:+ t) - String.length s) (s +:+ t) = t.
Proof.
  induction s as [|c s IH].
  - change ("" +:+ t) with t. simpl. rewrite Nat.sub_0_r.
    induction t as [|c t IH]; simpl; [done|]. by rewrite IH.
  - rewrite append_cons. simpl. done.
Qed.

Lemma replace_prefix pattern replacement s :
  String.prefix pattern s = true →
  replace pattern replacement s
  = replacement +:+
    String.substring (String.length pattern)
      (String.length s - String.length pattern) s.
Proof. intros Hp. destruct s; unfold replace; fold replace; by rewrite Hp. Qed.

Lemma replace_front pattern replacement t :
  replace pattern replacement (pattern +:+ t) = replacement +:+ t.
Proof.
  rewrite replace_prefix by apply prefix_append.
  by rewrite substring_append.
Qed.
End string_facts.

(** ** More on the conversation merge *)

Section sort_more.
Context {A : Type} (key : A → Z).
Implicit Types (x : A) (l k : list A).

Local Abbreviation cmp := (Chat.byCreatedAt key).

Lemma sort_insert_sublist x l m :
  Forall (λ y, key x <= key y) l →
  l `sublist_of` m →
  x :: l `sublist_of` JS.sort_insert cmp x m.
Proof.
  intros Hl Hsub. induction Hsub as [|y l m Hsub IH|y l m Hsub IH]; simpl.
  - by apply sublist_skip.
  - apply Forall_cons in Hl as [Hy Hl].
    rewrite decide_True by (unfold Chat.byCreatedAt; lia).
    by apply sublist_skip, sublist_skip.
  - case_decide.
    + by apply sublist_skip, sublist_cons.
    + by apply sublist_cons, IH.
Qed.

(** What is sorted keeps its order when more is sorted in. *)
Lemma sort_app_sublist l k :
  JS.ascending key l → l `sublist_of` JS.sort cmp (l ++ k).
Proof.
  unfold JS.ascending. induction 1 as [|x l Hl IH Hx]; simpl.
  - apply sublist_nil_l.
  - by apply sort_insert_sublist.
Qed.
End sort_more.

Section merge_more.
Import JS Chat.
Context (userId : string).
Implicit Types (prev next : list StoredMessage) (incoming : list ChatMessage)
  (clock : nat → Z).

(** X1.  A batch whose messages all carry an identity, delivered a second
    time (at whatever time), changes nothing: after the first merge every
    identity of the batch is known. *)
Theorem handleRealtimeMessages_repeat clock clock' prev incoming :
  Forall (λ m, truthy (cm_id m) = true) incoming →
  let next := handleRealtimeMessages userId clock prev incoming in
  handleRealtimeMessages userId clock' next incoming = next.
Proof.
  intros Hids next. unfold handleRealtimeMessages at 1.
  case_decide; [done|]. rewrite decide_True; [done|].
  unfold deduped. rewrite filter_none; [done|].
  intros msg Hmsg Hs. apply Is_true_true in Hs.
  assert (survives (existingIds next) msg = false) as Hf; [|congruence].
  apply survives_false.
  apply elem_of_lookup_imap in Hmsg as (n & m & -> & Hm).
  rewrite Forall_forall in Hids.
  pose proof (Hids m (list_elem_of_lookup_2 _ _ _ Hm)) as Ht.
  apply truthy_Some in Ht as (i & Hi & Hne).
  exists i. split_and!; [done..|].
  unfold next.
  rewrite (identities_Permutation _ _
             (handleRealtimeMessages_Permutation userId clock prev incoming)).
  rewrite identities_app. apply elem_of_app.
  destruct (survives (existingIds prev) (toStored userId clock n m)) eqn:Hsv.
  - right. apply elem_of_identities. split; [done|].
    exists (toStored userId clock n m). split; [|done].
    unfold deduped. apply list_elem_of_filter. split.
    + by apply Is_true_true.
    + unfold mapped. by apply elem_of_lookup_imap_2.
  - left. apply survives_false in Hsv as (j & Hj & _ & Hin).
    simpl in Hj. congruence.
Qed.

(** X2.  When the current list is sorted, the merge never reorders it: the
    current messages appear in the result in the order they had. *)
Theorem handleRealtimeMessages_keeps_order clock prev incoming :
  ascending sm_createdAt prev →
  prev `sublist_of` handleRealtimeMessages userId clock prev incoming.
Proof.
  intros Hprev. unfold handleRealtimeMessages.
  repeat case_decide; [done..|]. by apply sort_app_sublist.
Qed.

(** X3.  Messages of one instant stay in the order of their arrival: in the
    result, the messages created at [t] are those of the current list, in
    their order, followed by the surviving incoming ones, in the order of
    the batch. *)
Theorem handleRealtimeMessages_ties clock prev incoming (t : Z) :
  filter (λ msg, sm_createdAt msg = t)
    (handleRealtimeMessages userId clock prev incoming)
  = filter (λ msg, sm_createdAt msg = t) prev
    ++ filter (λ msg, sm_createdAt msg = t) (deduped userId clock prev incoming).
Proof.
  unfold handleRealtimeMessages.
  case_decide as Hin.
  - apply nil_length_inv in Hin. subst incoming. by rewrite app_nil_r.
  - case_decide as Hde.
    + apply nil_length_inv in Hde. by rewrite Hde, app_nil_r.
    + by rewrite sort_stable, filter_app.
Qed.
End merge_more.

Section merge_more_witnesses.
Import JS Chat.

(** X1 at a batch of one new and one known message. *)
Lemma handleRealtimeMessages_repeat_witness :
  let prev := [Samples.stored (Some "x") 1; Samples.stored (Some "y") 5] in
  let incoming :=
    [Samples.streamed (Some "z") 3; Samples.streamed (Some "x") 4] in
  let next := handleRealtimeMessages "u1" Samples.noon prev incoming in
  handleRealtimeMessages "u1" Samples.noon next incoming = next.
Proof.
  intros prev incoming next.
  apply (handleRealtimeMessages_repeat "u1" Samples.noon Samples.noon prev
           incoming).
  repeat apply Forall_cons_2; [reflexivity..|apply Forall_nil_2].
Defined.

(** X2 at a sorted list of two and a batch that lands between them. *)
Lemma handleRealtimeMessages_keeps_order_witness :
  let prev := [Samples.stored (Some "x") 1; Samples.stored (Some "y") 5] in
  prev `sublist_of`
    handleRealtimeMessages "u1" Samples.noon prev [Samples.streamed (Some "z") 3].
Proof.
  intros prev. apply handleRealtimeMessages_keeps_order.
  unfold ascending. apply (bool_decide_unpack _). vm_compute. exact I.
Defined.
End merge_more_witnesses.

(** ** Submitting a message *)

Section submit_more.
Import JS Chat.
Context (userId : string) (token : option string) (clock : nat → Z)
        (chat : Request → outcome (Response ChatReply))
        (usage userProfile : Request → outcome (Response json)).

Local Abbreviation handleSubmit :=
  (Chat.handleSubmit userId token clock chat usage userProfile).
Local Abbreviation userMessage := (Chat.userMessage userId clock).
Local Abbreviation assistantMessage := (Chat.assistantMessage userId clock).
Local Abbreviation chatRequest := (Chat.chatRequest userId token).

Lemma reverse_sent (prev : list StoredMessage) (text : string) :
  reverse (prev ++ [userMessage text]) = userMessage text :: reverse prev.
Proof. by rewrite reverse_app. Qed.

Lemma reverse_answered (prev : list StoredMessage) (text : string)
    (data : ChatReply) :
  reverse (prev ++ [userMessage text; assistantMessage data])
  = assistantMessage data :: userMessage text :: reverse prev.
Proof. by rewrite reverse_app. Qed.

Lemma guard_open (w : World) :
  trim (input (panel w)) ≠ "" →
  isLoading (panel w) = false →
  negb (truthy_string (trim (input (panel w)))) || isLoading (panel w) = false.
Proof.
  intros Hin ->. unfold truthy_string. by rewrite decide_False.
Qed.

(** X4.  A submit that passes the guard always comes to an end, whatever
    the network does: it never throws, the loading flag is down again, the
    input is empty, the chat log is shown, the message of the user (the
    trimmed input) follows the messages that were there, followed by at
    most the reply; the chat request is the first of at most three
    requests; and the ticker shows the text that was sent. *)
Theorem handleSubmit_settles (w : World) :
  trim (input (panel w)) ≠ "" →
  isLoading (panel w) = false →
  ∃ w' rest more,
    handleSubmit w = (Returns (), w')
    ∧ messages (panel w')
      = messages (panel w) ++ userMessage (input (panel w)) :: rest
    ∧ Forall (λ m, sm_role m = "assistant") rest
    ∧ (length rest ≤ 1)%nat
    ∧ sent w' = sent w ++ chatRequest (trim (input (panel w))) :: more
    ∧ (length more ≤ 2)%nat
    ∧ input (panel w') = ""
    ∧ isLoading (panel w') = false
    ∧ showWorkPlan (panel w') = false
    ∧ userText (panel w') = trim (input (panel w)).
Proof.
  intros Hin Hload. unfold_submit. rewrite (guard_open w Hin Hload).
  destruct (chat _) as [[[] [data|]]|]; simpl.
  - destruct (truthy_json (cr_tokensUsed data)); simpl.
    + destruct (usage _) as [?|]; simpl.
      * destruct (userProfile _) as [[[] [?|]]|]; simpl.
        all: eexists _, [assistantMessage data], [_; _].
        all: rewrite <-!app_assoc; simpl.
        all: split_and!; try done; try (by repeat constructor).
        all: unfold userText, lastUserMessage; simpl.
        all: by rewrite (reverse_answered _ _ data).
      * eexists _, [assistantMessage data], [_].
        rewrite <-!app_assoc; simpl.
        split_and!; try done; try (by repeat constructor); try (simpl; lia).
        unfold userText, lastUserMessage; simpl.
        by rewrite (reverse_answered _ _ data).
    + eexists _, [assistantMessage data], [].
      rewrite <-!app_assoc; simpl.
      split_and!; try done; try (by repeat constructor); try (simpl; lia).
      unfold userText, lastUserMessage; simpl.
      by rewrite (reverse_answered _ _ data).
  - eexists _, [], []. split_and!; try done; try (simpl; lia).
    unfold userText, lastUserMessage; simpl. by rewrite reverse_sent.
  - eexists _, [], []. split_and!; try done; try (simpl; lia).
    unfold userText, lastUserMessage; simpl. by rewrite reverse_sent.
  - eexists _, [], []. split_and!; try done; try (simpl; lia).
    unfold userText, lastUserMessage; simpl. by rewrite reverse_sent.
  - eexists _, [], []. split_and!; try done; try (simpl; lia).
    unfold userText, lastUserMessage; simpl. by rewrite reverse_sent.
Qed.

(** The world a submit leaves behind when the chat request fails. *)
Lemma handleSubmit_failed (w : World) :
  trim (input (panel w)) ≠ "" →
  isLoading (panel w) = false →
  chat (chatRequest (trim (input (panel w)))) = Throws
  ∨ (∃ response,
       chat (chatRequest (trim (input (panel w)))) = Returns response
       ∧ (ok response = false ∨ json_body response = Throws)) →
  handleSubmit w
  = (Returns (),
     {| panel :=
          {| messages := messages (panel w) ++ [userMessage (input (panel w))];
             input := ""; isLoading := false;
             error := Some "Failed to send message. Please try again.";
             profile := profile (panel w); toolCallHistory := [];
             showWorkPlan := false |};
        sent := sent w ++ [chatRequest (trim (input (panel w)))] |}).
Proof.
  intros Hin Hload Hfail. unfold_submit. rewrite (guard_open w Hin Hload).
  destruct Hfail as [-> | (response & -> & [Hok | Hjson])]; simpl.
  - done.
  - by rewrite Hok.
  - rewrite Hjson. by destruct (ok response).
Qed.

(** X5.  When the chat request fails (the fetch throws, the status is not
    ok, or the body cannot be read), the conversation holds the message of
    the user and no reply, the error is raised, the loading flag is down,
    and no other request has been sent. *)
Theorem handleSubmit_failure (w : World) :
  trim (input (panel w)) ≠ "" →
  isLoading (panel w) = false →
  chat (chatRequest (trim (input (panel w)))) = Throws
  ∨ (∃ response,
       chat (chatRequest (trim (input (panel w)))) = Returns response
       ∧ (ok response = false ∨ json_body response = Throws)) →
  handleSubmit w
  = (Returns (),
     {| panel :=
          {| messages := messages (panel w) ++ [userMessage (input (panel w))];
             input := ""; isLoading := false;
             error := Some "Failed to send message. Please try again.";
             profile := profile (panel w); toolCallHistory := [];
             showWorkPlan := false |};
        sent := sent w ++ [chatRequest (trim (input (panel w)))] |}).
Proof. apply handleSubmit_failed. Qed.

Lemma metadataError_assistant (data : ChatReply) :
  metadataError (assistantMessage data)
  = Notions.strictly_true (cr_error data).
Proof.
  unfold metadataError, Chat.assistantMessage, metadataOf.
  cbn [sm_metadata].
  destruct (match cr_tokensUsed data with
            | Some (JNum n) => Some n
            | _ => None
            end) as [t|];
    destruct (match cr_reasoning data with
              | Some (JStr r) =>
                  if decide (0 < String.length (trim r))%nat
                  then Some (trim r) else None
              | _ => None
              end) as [r|];
    by destruct (cr_error data) as [[| [] | | | |]|].
Qed.

(** X6.  When the chat request is answered, the reply follows the message
    of the user whatever becomes of the usage update: the ticker shows the
    reply, and the retry affordance is on exactly when the answer carries
    [error === true].  Without token usage no further request is sent and
    no error is raised. *)
Theorem handleSubmit_reply (w : World) (response : Response ChatReply)
    (data : ChatReply) :
  trim (input (panel w)) ≠ "" →
  isLoading (panel w) = false →
  chat (chatRequest (trim (input (panel w)))) = Returns response →
  ok response = true →
  json_body response = Returns data →
  let w' := (handleSubmit w).2 in
  messages (panel w')
  = messages (panel w)
    ++ [userMessage (input (panel w)); assistantMessage data]
  ∧ assistantText (panel w') = cr_response data
  ∧ hasLastMessageError (messages (panel w'))
    = Notions.strictly_true (cr_error data)
  ∧ (truthy_json (cr_tokensUsed data) = false →
     error (panel w') = None
     ∧ profile (panel w') = profile (panel w)
     ∧ sent w' = sent w ++ [chatRequest (trim (input (panel w)))]).
Proof.
  intros Hin Hload Hchat Hok Hjson w'.
  assert (messages (panel w')
          = messages (panel w)
            ++ [userMessage (input (panel w)); assistantMessage data]
          ∧ isLoading (panel w') = false) as [Hm Hl].
  { unfold w'. unfold_submit. rewrite (guard_open w Hin Hload).
    rewrite Hchat. simpl. rewrite Hok, Hjson. simpl.
    destruct (truthy_json (cr_tokensUsed data)); simpl.
    - destruct (usage _) as [?|]; simpl.
      + destruct (userProfile _) as [[[] [?|]]|]; simpl;
          by rewrite <-app_assoc.
      + by rewrite <-app_assoc.
    - by rewrite <-app_assoc. }
  split_and!.
  - done.
  - unfold assistantText, lastAssistantMessage. rewrite Hl, Hm.
    by rewrite reverse_answered.
  - unfold hasLastMessageError. rewrite Hm, reverse_answered. simpl.
    apply metadataError_assistant.
  - intros Hno. unfold w'. unfold_submit. rewrite (guard_open w Hin Hload).
    rewrite Hchat. simpl. rewrite Hok, Hjson. simpl. rewrite Hno. done.
Qed.

(** X7.  When the answer reports token usage and the usage update or the
    profile refresh that follows it throws, the send error is raised
    although the reply is in the conversation; the profile stays as it
    was. *)
Theorem handleSubmit_usage_fails (w : World) (response : Response ChatReply)
    (data : ChatReply) :
  trim (input (panel w)) ≠ "" →
  isLoading (panel w) = false →
  chat (chatRequest (trim (input (panel w)))) = Returns response →
  ok response = true →
  json_body response = Returns data →
  truthy_json (cr_tokensUsed data) = true →
  usage (usageRequest token (default JNull (cr_tokensUsed data))) = Throws
  ∨ userProfile (profileRequest token) = Throws →
  let w' := (handleSubmit w).2 in
  error (panel w') = Some "Failed to send message. Please try again."
  ∧ lastAssistantMessage (messages (panel w')) = Some (cr_response data)
  ∧ profile (panel w') = profile (panel w)
  ∧ isLoading (panel w') = false.
Proof.
  intros Hin Hload Hchat Hok Hjson Htok Hthrow w'.
  unfold w', lastAssistantMessage. unfold_submit.
  rewrite (guard_open w Hin Hload).
  rewrite Hchat. simpl. rewrite Hok, Hjson. simpl. rewrite Htok. simpl.
  destruct Hthrow as [-> | Hp]; simpl.
  - rewrite <-app_assoc. simpl. by rewrite reverse_answered.
  - destruct (usage _); simpl; rewrite ?Hp; simpl;
      rewrite <-app_assoc; simpl; by rewrite reverse_answered.
Qed.
End submit_more.

Section submit_identities.
Import JS Chat.

Lemma numeric_pretty_N_go (x : N) (s : string) :
  numeric s = true → numeric (pretty_N_go x s) = true.
Proof.
  revert s. induction (N.lt_wf_0 x) as [x _ IH]; intros s Hs.
  assert (x = 0 ∨ 0 < x)%N as [-> | Hx] by lia.
  - by rewrite pretty_N_go_0.
  - rewrite pretty_N_go_step by done. apply IH.
    + by apply N.div_lt.
    + simpl. rewrite Hs, andb_true_r.
      unfold pretty_N_char. by repeat case_match.
Qed.

Lemma numeric_pretty (z : Z) : numeric (pretty z) = true.
Proof.
  assert (∀ p : positive, numeric (pretty p) = true) as Hpos.
  { intros p. unfold pretty, pretty_positive, pretty, pretty_N.
    case_decide; [done|]. by apply numeric_pretty_N_go. }
  destruct z as [|p|p]; unfold pretty, pretty_Z; [done|apply Hpos|].
  rewrite append_cons. simpl. apply Hpos.
Qed.

Lemma not_numeric_assistant (s : string) : numeric (s +:+ "-assistant") = false.
Proof.
  induction s as [|c s IH]; [done|].
  rewrite append_cons. simpl. by rewrite IH, andb_false_r.
Qed.

(** X8.  The identity given to a reply never equals the identity given to a
    message of the user, whatever the clock shows at either moment: the one
    ends in ["-assistant"], the other is a number. *)
Theorem submit_identities_differ (userId userId' : string)
    (clock clock' : nat → Z) (text : string) (data : ChatReply) :
  sm_id (userMessage userId clock text)
  ≠ sm_id (assistantMessage userId' clock' data).
Proof.
  simpl. intros [= Heq].
  pose proof (numeric_pretty (clock 0%nat)) as Hn.
  rewrite Heq, not_numeric_assistant in Hn. done.
Qed.
End submit_identities.

Section submit_witnesses.
Import JS Chat.

(** X4 at the input [" hi "] and a chat endpoint that answers. *)
Lemma handleSubmit_settles_witness :
  let w := Samples.typing " hi " false [] in
  ∃ w' rest more,
    handleSubmit "u1" (Some "tok") Samples.noon (Samples.replies "hello")
      Samples.offline Samples.offline w = (Returns (), w')
    ∧ messages (panel w')
      = messages (panel w) ++ userMessage "u1" Samples.noon " hi " :: rest
    ∧ sent w' = sent w ++ chatRequest "u1" (Some "tok") "hi" :: more
    ∧ isLoading (panel w') = false.
Proof.
  intros w.
  destruct (handleSubmit_settles "u1" (Some "tok") Samples.noon
              (Samples.replies "hello") Samples.offline Samples.offline w)
    as (w' & rest & more & Hrun & Hm & _ & _ & Hs & _ & _ & Hl & _).
  - vm_compute. discriminate.
  - reflexivity.
  - exists w', rest, more. split_and!; [exact Hrun|exact Hm|exact Hs|exact Hl].
Defined.

(** X5 at a chat endpoint that cannot be reached. *)
Lemma handleSubmit_failure_witness :
  let w := Samples.typing " hi " false [] in
  error (panel (handleSubmit "u1" (Some "tok") Samples.noon Samples.offline
                  Samples.offline Samples.offline w).2)
  = Some "Failed to send message. Please try again.".
Proof.
  intros w.
  rewrite (handleSubmit_failure "u1" (Some "tok") Samples.noon Samples.offline
             Samples.offline Samples.offline w).
  - reflexivity.
  - vm_compute. discriminate.
  - reflexivity.
  - left. reflexivity.
Defined.

(** X6 at a chat endpoint that answers ["hello"]. *)
Lemma handleSubmit_reply_witness :
  let w := Samples.typing " hi " false [] in
  let w' := (handleSubmit "u1" (Some "tok") Samples.noon (Samples.replies "hello")
               Samples.offline Samples.offline w).2 in
  assistantText (panel w') = "hello"
  ∧ hasLastMessageError (messages (panel w')) = false
  ∧ error (panel w') = None.
Proof.
  intros w w'.
  destruct (handleSubmit_reply "u1" (Some "tok") Samples.noon
              (Samples.replies "hello") Samples.offline Samples.offline w
              _ _ ltac:(vm_compute; discriminate) eq_refl eq_refl eq_refl eq_refl)
    as (_ & Ht & He & Hno).
  destruct (Hno eq_refl) as (Herr & _ & _).
  split_and!; [exact Ht|exact He|exact Herr].
Defined.

(** X7 at an answer that reports 42 tokens while the usage endpoint cannot
    be reached. *)
Lemma handleSubmit_usage_fails_witness :
  let w := Samples.typing " hi " false [] in
  let w' := (handleSubmit "u1" (Some "tok") Samples.noon (Samples.metered "hello" 42)
               Samples.offline Samples.offline w).2 in
  error (panel w') = Some "Failed to send message. Please try again."
  ∧ lastAssistantMessage (messages (panel w')) = Some "hello".
Proof.
  intros w w'.
  destruct (handleSubmit_usage_fails "u1" (Some "tok") Samples.noon
              (Samples.metered "hello" 42) Samples.offline Samples.offline w
              _ _ ltac:(vm_compute; discriminate) eq_refl eq_refl eq_refl
              eq_refl eq_refl (or_introl eq_refl))
    as (Herr & Hlast & _).
  split; [exact Herr|exact Hlast].
Defined.
End submit_witnesses.

(** ** Retrying, polling and loading *)

Section retry.
Import JS Chat.

Lemma handleSubmit_first_request (userId : string) (token : option string)
    (clock : nat → Z) (chat : Request → outcome (Response ChatReply))
    (usage userProfile : Request → outcome (Response json)) (w : World) :
  trim (input (panel w)) ≠ "" →
  isLoading (panel w) = false →
  ∃ w' more,
    handleSubmit userId token clock chat usage userProfile w = (Returns (), w')
    ∧ sent w' = sent w ++ chatRequest userId token (trim (input (panel w))) :: more.
Proof.
  intros Hin Hload. unfold_submit. rewrite (guard_open w Hin Hload).
  destruct (chat _) as [[[] [data|]]|]; simpl;
    [|by eexists _, []..].
  destruct (truthy_json (cr_tokensUsed data)); simpl; [|by eexists _, []].
  destruct (usage _) as [?|]; simpl.
  - destruct (userProfile _) as [[[] [?|]]|]; simpl;
      eexists _, [_; _]; by rewrite <-!app_assoc.
  - eexists _, [_]. by rewrite <-!app_assoc.
Qed.

(** X9.  After a send that failed, [retryLastMessage] puts the text that
    was sent back into the input and schedules a submit; that submit, under
    whatever network it finds, sends the very request of the first
    attempt. *)
Theorem retry_resubmits (userId : string) (token : option string)
    (clock clock' : nat → Z)
    (chat chat' : Request → outcome (Response ChatReply))
    (usage usage' userProfile userProfile' : Request → outcome (Response json))
    (w : World) :
  trim (input (panel w)) ≠ "" →
  isLoading (panel w) = false →
  chat (chatRequest userId token (trim (input (panel w)))) = Throws
  ∨ (∃ response,
       chat (chatRequest userId token (trim (input (panel w)))) = Returns response
       ∧ (ok response = false ∨ json_body response = Throws)) →
  let w1 := (handleSubmit userId token clock chat usage userProfile w).2 in
  ∃ w2 w3 more,
    retryLastMessage w1 = (Returns true, w2)
    ∧ input (panel w2) = trim (input (panel w))
    ∧ messages (panel w2) = messages (panel w1)
    ∧ handleSubmit userId token clock' chat' usage' userProfile' w2
      = (Returns (), w3)
    ∧ sent w3
      = sent w2 ++ chatRequest userId token (trim (input (panel w))) :: more.
Proof.
  intros Hin Hload Hfail w1.
  assert (∃ w2, retryLastMessage w1 = (Returns true, w2)
                ∧ input (panel w2) = trim (input (panel w))
                ∧ messages (panel w2) = messages (panel w1)
                ∧ isLoading (panel w2) = false) as (w2 & Hr & Hi & Hm & Hl).
  { unfold w1.
    rewrite (handleSubmit_failed _ _ _ _ _ _ w Hin Hload Hfail). simpl.
    unfold retryLastMessage, setInput. run_eff.
    rewrite reverse_sent. simpl.
    eexists. split_and!; reflexivity. }
  destruct (handleSubmit_first_request userId token clock' chat' usage'
              userProfile' w2) as (w3 & more & Hrun & Hsent).
  - by rewrite Hi, trim_idempotent.
  - done.
  - exists w2, w3, more. rewrite Hi, trim_idempotent in Hsent. done.
Qed.
End retry.

Section retry_witness.
Import JS Chat.

(** X9 at the input [" hi "], a chat endpoint that cannot be reached at the
    first attempt and answers at the second. *)
Lemma retry_resubmits_witness :
  let w := Samples.typing " hi " false [] in
  let w1 := (handleSubmit "u1" (Some "tok") Samples.noon Samples.offline
               Samples.offline Samples.offline w).2 in
  ∃ w2 w3 more,
    retryLastMessage w1 = (Returns true, w2)
    ∧ input (panel w2) = "hi"
    ∧ handleSubmit "u1" (Some "tok") Samples.noon (Samples.replies "hello")
        Samples.offline Samples.offline w2 = (Returns (), w3)
    ∧ sent w3 = sent w2 ++ chatRequest "u1" (Some "tok") "hi" :: more.
Proof.
  intros w w1.
  destruct (retry_resubmits "u1" (Some "tok") Samples.noon Samples.noon
              Samples.offline (Samples.replies "hello")
              Samples.offline Samples.offline Samples.offline Samples.offline w)
    as (w2 & w3 & more & Hr & Hi & _ & Hrun & Hsent).
  - vm_compute. discriminate.
  - reflexivity.
  - left. reflexivity.
  - exists w2, w3, more. split_and!; [exact Hr|exact Hi|exact Hrun|exact Hsent].
Defined.
End retry_witness.

Section loads.
Import JS Chat.
Context (token : option string).

(** X10.  A poll that is not answered, is answered with a bad status or an
    unreadable body, or whose selected run is absent or has no tool-call
    mapping, leaves the displayed history and the rest of the panel as they
    are: it neither clears the history nor throws. *)
Theorem pollWorkflowRuns_keeps
    (workflowRuns : Request → outcome (Response WorkflowRuns))
    (isLoading : bool) (w : World) :
  workflowRuns (workflowRunsRequest token) = Throws
  ∨ (∃ response,
       workflowRuns (workflowRunsRequest token) = Returns response
       ∧ (ok response = false
          ∨ json_body response = Throws
          ∨ ∃ data, json_body response = Returns data
              ∧ workflowToDisplay isLoading data ≫= toolCalls = None)) →
  pollWorkflowRuns token workflowRuns isLoading w
  = (Returns (),
     {| panel := panel w; sent := sent w ++ [workflowRunsRequest token] |}).
Proof.
  unfold pollWorkflowRuns, fetch. run_eff.
  intros [-> | (response & -> & [Hok | [Hjson | (data & Hjson & Hnone)]])];
    simpl.
  - done.
  - by rewrite Hok.
  - rewrite Hjson. by destruct (ok response).
  - rewrite Hjson. destruct (ok response); [|done]. simpl.
    unfold workflowToDisplay, mbind, option_bind in *. by rewrite Hnone.
Qed.

(** X11.  Loading the history never throws and touches nothing but the
    messages.  When the endpoint answers ok with a readable body, the
    messages are replaced by the messages of the answer (none when the
    answer has no list); in every other case they stay as they are. *)
Theorem loadMessages_effect
    (history : Request → outcome (Response History)) (w : World) :
  ∃ w', loadMessages token history w = (Returns (), w')
    ∧ sent w' = sent w ++ [historyRequest token]
    ∧ input (panel w') = input (panel w)
    ∧ isLoading (panel w') = isLoading (panel w)
    ∧ error (panel w') = error (panel w)
    ∧ profile (panel w') = profile (panel w)
    ∧ toolCallHistory (panel w') = toolCallHistory (panel w)
    ∧ showWorkPlan (panel w') = showWorkPlan (panel w)
    ∧ (∀ response data,
         history (historyRequest token) = Returns response →
         ok response = true →
         json_body response = Returns data →
         messages (panel w') = default [] (h_messages data))
    ∧ (history (historyRequest token) = Throws
       ∨ (∃ response, history (historyRequest token) = Returns response
            ∧ (ok response = false ∨ json_body response = Throws)) →
       messages (panel w') = messages (panel w)).
Proof.
  unfold loadMessages, fetch, setMessages. run_eff.
  destruct (history _) as [[[] [data|]]|] eqn:Hh; simpl;
    eexists; split_and!; try done.
  - intros response data' [= <-]. simpl. by intros _ [= <-].
  - intros [? | (response & [= <-] & [? | ?])]; done.
  - intros response data' [= <-]. simpl. by intros _ ?.
  - intros response data' [= <-]. simpl. by intros ?.
  - intros response data' [= <-]. simpl. by intros ?.
Qed.
End loads.

Section loads_witness.
Import JS Chat.

(** X11 at a history of one message that replaces the message shown. *)
Lemma loadMessages_effect_witness :
  let w := Samples.typing "" false [] in
  ∃ w', loadMessages None (Samples.remembers [Samples.stored (Some "h1") 3]) w
        = (Returns (), w')
    ∧ messages (panel w') = [Samples.stored (Some "h1") 3].
Proof.
  intros w.
  destruct (loadMessages_effect None
              (Samples.remembers [Samples.stored (Some "h1") 3]) w)
    as (w' & Hrun & _ & _ & _ & _ & _ & _ & _ & Hok & _).
  exists w'. split; [exact Hrun|].
  exact (Hok _ _ eq_refl eq_refl eq_refl).
Defined.

(** X10 at a run without tool-call mapping. *)
Lemma pollWorkflowRuns_keeps_witness :
  let w := Samples.typing "" true [Samples.toolCall "get-event" 5] in
  toolCallHistory
    (panel (pollWorkflowRuns None Samples.idle true w).2)
  = [Samples.toolCall "get-event" 5].
Proof.
  intros w. rewrite (pollWorkflowRuns_keeps None Samples.idle true w).
  - reflexivity.
  - right. eexists. split; [reflexivity|].
    right. right. eexists. split; reflexivity.
Defined.
End loads_witness.

Section profile_load.
Import JS Chat.

(** X12.  Loading the profile never throws and touches nothing but the
    profile, which changes only when the endpoint answers with a readable
    body. *)
Theorem loadProfile_effect (token : option string)
    (userProfile : Request → outcome (Response json)) (w : World) :
  ∃ w', loadProfile token userProfile w = (Returns (), w')
    ∧ sent w' = sent w ++ [profileRequest token]
    ∧ messages (panel w') = messages (panel w)
    ∧ input (panel w') = input (panel w)
    ∧ isLoading (panel w') = isLoading (panel w)
    ∧ error (panel w') = error (panel w)
    ∧ toolCallHistory (panel w') = toolCallHistory (panel w)
    ∧ showWorkPlan (panel w') = showWorkPlan (panel w)
    ∧ (profile (panel w') = profile (panel w)
       ∨ ∃ response data,
           userProfile (profileRequest token) = Returns response
           ∧ ok response = true
           ∧ json_body response = Returns data
           ∧ profile (panel w') = Some data).
Proof.
  unfold loadProfile, fetch, setProfile, profileRequest. run_eff.
  destruct (userProfile _) as [[[] [data|]]|] eqn:Hh; simpl;
    eexists; split_and!; try done; try (by left).
  right. by exists {| ok := true; json_body := Returns data |}, data.
Qed.
End profile_load.

(** ** More on the workplan panel *)

Section workplan_more.
Import JS Workplan.
Implicit Types (items mocks : list WorkplanEntry) (k : string) (st : State).

Lemma firstWith_cons k item items :
  firstWith k (item :: items)
  = if decide (ev_id (event item) = k) then Some item else firstWith k items.
Proof. unfold firstWith. rewrite filter_cons. by case_decide. Qed.

Lemma firstWith_fmap k (f : WorkplanEntry → WorkplanEntry) items :
  (∀ item, event (f item) = event item) →
  firstWith k (f <$> items) = f <$> firstWith k items.
Proof.
  intros Hf. induction items as [|item items IH]; [done|].
  rewrite fmap_cons, !firstWith_cons, Hf, IH. by case_decide.
Qed.

Lemma firstWith_Some k items item :
  firstWith k items = Some item → ev_id (event item) = k ∧ item ∈ items.
Proof.
  induction items as [|x items IH]; [done|].
  rewrite firstWith_cons. case_decide.
  - intros [= ->]. split; [done|left].
  - intros [? ?]%IH. split; [done|by right].
Qed.

Lemma firstWith_head items :
  match firstId items with
  | Some k => firstWith k items
  | None => None
  end = head items.
Proof.
  destruct items as [|item items]; [done|].
  simpl. rewrite firstWith_cons. by rewrite decide_True.
Qed.

(** What a mounted load shows and which drafts it leaves. *)
Lemma load_mounted_run mocks (fetched : outcome Response) st :
  let st' := (load mocks fetched false st).2 in
  workplans st'
  = match arrival fetched with
    | Some (item :: items) => item :: items
    | _ => mocks
    end
  ∧ roleDrafts st'
    = match arrival fetched with
      | Some (item :: items) => seedDrafts (item :: items) (roleDrafts st)
      | _ => mockDrafts mocks
      end.
Proof.
  unfold load, arrival, showMocks, setWorkplans, setRoleDrafts,
    setSelectedId, setError, setLoadingList.
  run_eff.
  destruct fetched as [[[] [data|]]|]; simpl; try done.
  by destruct (omap id (default [] (workplans_field data))).
Qed.

(** X13.  A load that settles while the panel is mounted never leaves the
    panel empty-handed: it shows the entries that arrived, or the mock set
    when none arrived or the fetch failed; the selection resolves to the
    first entry shown; the loading flag is down; and the warning is raised
    exactly when the fetch failed (not when it merely brought no entry). *)
Theorem load_mounted mocks (fetched : outcome Response) st :
  let shown :=
    match arrival fetched with
    | Some (item :: items) => item :: items
    | _ => mocks
    end in
  ∃ st', load mocks fetched false st = (Returns (), st')
    ∧ workplans st' = shown
    ∧ selectedId st' = firstId shown
    ∧ selected st' = head shown
    ∧ loadingList st' = false
    ∧ regenerating st' = regenerating st
    ∧ error st'
      = match arrival fetched with
        | Some _ => None
        | None => Some "Failed to load upcoming workplans. Showing examples."
        end.
Proof.
  intros shown.
  assert (∃ st', load mocks fetched false st = (Returns (), st')
            ∧ workplans st' = shown
            ∧ selectedId st' = firstId shown
            ∧ loadingList st' = false
            ∧ regenerating st' = regenerating st
            ∧ error st'
              = match arrival fetched with
                | Some _ => None
                | None =>
                    Some "Failed to load upcoming workplans. Showing examples."
                end) as (st' & Hrun & Hw & Hs & Hrest).
  { unfold shown, load, arrival, showMocks, setWorkplans, setRoleDrafts,
      setSelectedId, setError, setLoadingList.
    run_eff.
    destruct fetched as [[[] [data|]]|]; simpl; try (by eexists).
    destruct (omap id (default [] (workplans_field data))); simpl;
      by eexists. }
  exists st'. split_and!; try done; try apply Hrest.
  unfold selected. rewrite Hs, Hw. apply firstWith_head.
Qed.

(** X14.  A load that settles after the panel was unmounted changes
    nothing at that point; what it did before the fetch stays: the loading
    flag is up and the warning is cleared. *)
Theorem load_cancelled mocks (fetched : outcome Response) st :
  load mocks fetched true st
  = (Returns (),
     {| workplans := workplans st; loadingList := true;
        regenerating := regenerating st; selectedId := selectedId st;
        error := None; roleDrafts := roleDrafts st |}).
Proof.
  unfold load, showMocks, setWorkplans, setRoleDrafts, setSelectedId,
    setError, setLoadingList.
  run_eff. by destruct fetched as [[[] [data|]]|].
Qed.

(** What the drafts of the mock set hold under every key: the seed of the
    last mock entry with that identity. *)
Lemma mockDrafts_lookup mocks k :
  mockDrafts mocks !! k
  = if decide (k = "__proto__") then None
    else seedOf <$> last (filter (λ item, ev_id (event item) = k) mocks).
Proof.
  unfold mockDrafts.
  induction mocks as [|item mocks IH] using rev_ind.
  - simpl. rewrite lookup_empty. by case_decide.
  - rewrite foldl_app, filter_app. simpl. unfold assign at 1.
    rewrite filter_cons, filter_nil.
    destruct (decide (ev_id (event item) = "__proto__")) as [Hp|Hp].
    + rewrite IH. case_decide as Hk; [done|].
      rewrite decide_False by congruence. by rewrite app_nil_r.
    + destruct (decide (ev_id (event item) = k)) as [<-|Hne].
      * rewrite lookup_insert_eq, decide_False by done.
        by rewrite last_snoc.
      * rewrite lookup_insert_ne, IH by done. by rewrite app_nil_r.
Qed.

(** X15.  The drafts of the mock set follow the last mock entry of an
    identity, where the drafts seeded from arriving entries follow the
    first: with two entries of one identity the two seedings disagree. *)
Theorem mock_and_arrival_seeding mocks k :
  inherited k = false →
  mockDrafts mocks !! k
  = seedOf <$> last (filter (λ item, ev_id (event item) = k) mocks)
  ∧ seedDrafts mocks ∅ !! k
    = seedOf <$> head (filter (λ item, ev_id (event item) = k) mocks).
Proof.
  intros Hin.
  assert (k ≠ "__proto__") as Hp by (intros ->; vm_compute in Hin; done).
  split.
  - by rewrite mockDrafts_lookup, decide_False.
  - by rewrite seedDrafts_lookup, lookup_empty, Hin.
Qed.

(** X16.  After a load that settles while the panel is mounted, every entry
    shown has a draft of its own, unless its identity names a property that
    every object inherits; so the draft read for the display is a string. *)
Theorem load_drafts_cover mocks (fetched : outcome Response) st item :
  let st' := (load mocks fetched false st).2 in
  item ∈ workplans st' →
  inherited (ev_id (event item)) = false →
  ∃ draft, roleDrafts st' !! ev_id (event item) = Some draft
    ∧ readDraft (roleDrafts st') (ev_id (event item)) = Some draft.
Proof.
  intros st' Hitem Hin.
  assert (is_Some (roleDrafts st' !! ev_id (event item))) as [draft Hd].
  { destruct (load_mounted_run mocks fetched st) as (Hw & Hd).
    fold st' in Hw, Hd. rewrite Hw in Hitem. rewrite Hd.
    assert (∀ l, item ∈ l →
              filter (λ x, ev_id (event x) = ev_id (event item)) l ≠ [])
      as Hfilter.
    { intros l Hl Hnil.
      eapply (filter_nil_not_elem_of _ _ item); [exact Hnil|done|done]. }
    assert (ev_id (event item) ≠ "__proto__") as Hp
      by (intros Hp; rewrite Hp in Hin; vm_compute in Hin; done).
    destruct (arrival fetched) as [[|x items]|].
    - rewrite mockDrafts_lookup, decide_False by done.
      by apply fmap_is_Some, last_is_Some, Hfilter.
    - rewrite seedDrafts_lookup.
      destruct (roleDrafts st !! ev_id (event item)); [by eexists|].
      rewrite Hin. unfold firstWith.
      by apply fmap_is_Some, head_is_Some, Hfilter.
    - rewrite mockDrafts_lookup, decide_False by done.
      by apply fmap_is_Some, last_is_Some, Hfilter. }
  exists draft. split; [done|]. unfold readDraft. by rewrite Hd.
Qed.
End workplan_more.

(** ** The displayed role and regeneration *)

Section regenerate_more.
Import JS Workplan.
Implicit Types (st : State) (sel item : WorkplanEntry) (value draft : string).

Lemma selected_Some st item :
  selected st = Some item →
  selectedId st = Some (ev_id (event item))
  ∧ firstWith (ev_id (event item)) (workplans st) = Some item.
Proof.
  unfold selected. destruct (selectedId st) as [k|]; [|done].
  intros Hf. destruct (firstWith_Some _ _ _ Hf) as [<- _]. done.
Qed.

Lemma trim_length value :
  String.length (trim value) = 0%nat ↔ trim value = "".
Proof. by destruct (trim value). Qed.

(** X17.  Right after a draft is typed for the selected entry, the draft
    read back is the text typed, and the role displayed is the trimmed text,
    or the role inferred from the event when the text is blank; the role
    the entry had before plays no part. *)
Theorem display_after_typing (inferRoleFromEvent : Event → string)
    value st item :
  selected st = Some item →
  let st' := (handleRoleChange (ev_id (event item)) value st).2 in
  selectedRoleDraft st' = Some value
  ∧ selectedRoleDisplay inferRoleFromEvent st'
    = Returns (if decide (trim value = "")
               then inferRoleFromEvent (event item) else trim value).
Proof.
  intros Hsel st'.
  destruct (selected_Some st item Hsel) as [Hid Hfirst].
  assert (∃ item', selected st' = Some item'
            ∧ event item' = event item
            ∧ role item' = normaliseRole (Some value)) as (item' & Hs' & He & Hr).
  { unfold selected, st', handleRoleChange, setRoleDrafts, setWorkplans.
    run_eff. rewrite Hid, firstWith_fmap, Hfirst; simpl.
    - rewrite decide_True by done. by eexists.
    - intros x. by case_decide. }
  assert (selectedRoleDraft st' = Some value) as Hdraft.
  { unfold selectedRoleDraft. rewrite Hs', He.
    unfold st', handleRoleChange, setRoleDrafts, setWorkplans, readDraft.
    run_eff. by rewrite lookup_insert_eq. }
  split; [done|].
  unfold selectedRoleDisplay, selectedRoleFallback.
  rewrite Hdraft, Hs', Hr, He. unfold normaliseRole, truthy_string.
  destruct (decide (trim value = "")) as [Ht|Ht].
  - rewrite decide_True by by apply trim_length. done.
  - rewrite decide_False by by rewrite trim_length. done.
Qed.

(** X18.  Without a selected entry, [handleRegenerate] does nothing: no
    request is made and no flag moves. *)
Theorem handleRegenerate_nothing_selected
    (regenerate : RegenerateRequest → outcome RegenerateResponse) st :
  selected st = None →
  handleRegenerate regenerate st = (Returns (), st).
Proof. intros Hsel. unfold handleRegenerate. run_eff. by rewrite Hsel. Qed.

(** The request a regeneration sends for the entry [sel] and the draft
    [draft]. *)
Lemma handleRegenerate_run
    (regenerate : RegenerateRequest → outcome RegenerateResponse)
    st sel draft :
  selected st = Some sel →
  readDraft (roleDrafts st) (ev_id (event sel)) = Some draft →
  handleRegenerate regenerate st
  = match regenerate {| rq_event := event sel;
                        rq_userRole := normaliseRole (Some draft) |} with
    | Returns {| rg_ok := true; rg_json := Returns data |} =>
        (Returns (),
         {| workplans :=
              (λ item,
                 if decide (ev_id (event item) = ev_id (event sel))
                 then regenerated (normaliseRole (Some draft)) data item
                 else item) <$> workplans st;
            loadingList := loadingList st; regenerating := false;
            selectedId := selectedId st; error := None;
            roleDrafts :=
              <[ev_id (event sel) :=
                  if decide (0 < String.length (trim draft))%nat
                  then trim draft else default "" (rg_role data)]>
                (roleDrafts st) |})
    | _ =>
        (Returns (),
         {| workplans := workplans st; loadingList := loadingList st;
            regenerating := false; selectedId := selectedId st;
            error :=
              Some "Unable to regenerate workplan right now. Try again later.";
            roleDrafts := roleDrafts st |})
    end.
Proof.
  intros Hsel Hdraft.
  unfold handleRegenerate, setRegenerating, setError, setWorkplans,
    setRoleDrafts.
  run_eff. rewrite Hsel. simpl. rewrite Hdraft. simpl.
  by destruct (regenerate _) as [[[] [data|]]|].
Qed.

(** X19.  When the regeneration request fails (the fetch throws, the status
    is not ok, or the body cannot be read), the entries, the drafts and the
    selection are as before, the warning is raised and the regenerating
    flag is down. *)
Theorem handleRegenerate_failure
    (regenerate : RegenerateRequest → outcome RegenerateResponse)
    st sel draft :
  selected st = Some sel →
  readDraft (roleDrafts st) (ev_id (event sel)) = Some draft →
  (let request := {| rq_event := event sel;
                     rq_userRole := normaliseRole (Some draft) |} in
   regenerate request = Throws
   ∨ ∃ res, regenerate request = Returns res
       ∧ (rg_ok res = false ∨ rg_json res = Throws)) →
  handleRegenerate regenerate st
  = (Returns (),
     {| workplans := workplans st; loadingList := loadingList st;
        regenerating := false; selectedId := selectedId st;
        error := Some "Unable to regenerate workplan right now. Try again later.";
        roleDrafts := roleDrafts st |}).
Proof.
  intros Hsel Hdraft Hfail.
  rewrite (handleRegenerate_run regenerate st sel draft Hsel Hdraft).
  cbv zeta in Hfail.
  destruct Hfail as [-> | (res & -> & Hres)]; [done|].
  destruct res as [[] [data|]]; simpl in Hres; [|done..].
  by destruct Hres.
Qed.

(** X20.  When the regeneration is answered, only entries of the selected
    event change: each keeps its event and takes the steps, the status and
    the timestamp of the answer, its error is cleared, and its role is the
    normalised role of the answer or, when that is absent, the normalised
    draft.  The draft of the event becomes the trimmed draft or, when that
    is blank, the role of the answer as sent (the empty string when
    absent).  The other entries, the other drafts and the selection stay;
    the flags are down and no warning is shown. *)
Theorem handleRegenerate_success
    (regenerate : RegenerateRequest → outcome RegenerateResponse)
    st sel draft res data :
  selected st = Some sel →
  readDraft (roleDrafts st) (ev_id (event sel)) = Some draft →
  regenerate {| rq_event := event sel;
                rq_userRole := normaliseRole (Some draft) |} = Returns res →
  rg_ok res = true →
  rg_json res = Returns data →
  let st' := (handleRegenerate regenerate st).2 in
  let k := ev_id (event sel) in
  (∀ n item, workplans st !! n = Some item →
     ∃ item', workplans st' !! n = Some item'
       ∧ event item' = event item
       ∧ (ev_id (event item) ≠ k → item' = item)
       ∧ (ev_id (event item) = k →
            steps item' = default [] (rg_steps data)
            ∧ status item' = default "ready" (rg_status data)
            ∧ lastGeneratedAt item' = rg_lastGeneratedAt data
            ∧ entry_error item' = None
            ∧ role item' = match normaliseRole (rg_role data) with
                           | Some r => Some r
                           | None => normaliseRole (Some draft)
                           end))
  ∧ length (workplans st') = length (workplans st)
  ∧ roleDrafts st' !! k
    = Some (if decide (trim draft = "") then default "" (rg_role data)
            else trim draft)
  ∧ (∀ k', k' ≠ k → roleDrafts st' !! k' = roleDrafts st !! k')
  ∧ selectedId st' = selectedId st
  ∧ loadingList st' = loadingList st
  ∧ regenerating st' = false
  ∧ error st' = None.
Proof.
  intros Hsel Hdraft Hreq Hok Hjson st' k. unfold st'.
  rewrite (handleRegenerate_run regenerate st sel draft Hsel Hdraft), Hreq.
  destruct res as [okb body]. simpl in Hok, Hjson. subst okb body. simpl.
  split_and!; try done.
  - intros n item Hn. rewrite list_lookup_fmap, Hn. simpl.
    eexists. split; [done|]. fold k.
    destruct (decide (ev_id (event item) = k)); simpl; split_and!; done.
  - apply length_fmap.
  - fold k. rewrite lookup_insert_eq. f_equal.
    destruct (decide (trim draft = "")) as [Ht|Ht].
    + rewrite decide_False; [done|]. apply trim_length in Ht. lia.
    + rewrite decide_True; [done|].
      assert (String.length (trim draft) ≠ 0%nat) by by rewrite trim_length.
      lia.
  - intros k' Hk'. fold k. by rewrite lookup_insert_ne.
Qed.
End regenerate_more.

Section commit_role.
Import JS Workplan.

(** X21.  Typing a role for the selected entry and regenerating sends the
    normalised text as [userRole] (no role at all for a blank text); once
    answered, the entry carries the role of the answer or, when the answer
    has none, the normalised text, and the draft is the trimmed text or,
    when that is blank, the role of the answer. *)
Theorem typed_role_is_committed
    (regenerate : RegenerateRequest → outcome RegenerateResponse)
    (value : string) (st : State) (sel : WorkplanEntry)
    (res : RegenerateResponse) (data : RegenerateReply) :
  selected st = Some sel →
  regenerate {| rq_event := event sel;
                rq_userRole := normaliseRole (Some value) |} = Returns res →
  rg_ok res = true →
  rg_json res = Returns data →
  let k := ev_id (event sel) in
  let st1 := (handleRoleChange k value st).2 in
  let st2 := (handleRegenerate regenerate st1).2 in
  (∃ item, selected st2 = Some item
     ∧ event item = event sel
     ∧ role item = match normaliseRole (rg_role data) with
                   | Some r => Some r
                   | None => normaliseRole (Some value)
                   end)
  ∧ roleDrafts st2 !! k
    = Some (if decide (trim value = "") then default "" (rg_role data)
            else trim value).
Proof.
  intros Hsel Hreq Hok Hjson k st1 st2.
  destruct (selected_Some st sel Hsel) as [Hid Hfirst].
  set (f := λ item : WorkplanEntry,
         if decide (ev_id (event item) = k)
         then {| event := event item; status := status item;
                 steps := steps item;
                 lastGeneratedAt := lastGeneratedAt item;
                 role := normaliseRole (Some value);
                 entry_error := entry_error item |}
         else item).
  assert (∀ item, event (f item) = event item) as Hf.
  { intros item. unfold f. by case_decide. }
  assert (st1 = {| workplans := f <$> workplans st;
                   loadingList := loadingList st;
                   regenerating := regenerating st;
                   selectedId := selectedId st; error := error st;
                   roleDrafts := <[k := value]> (roleDrafts st) |}) as Hst1.
  { unfold st1, handleRoleChange, setRoleDrafts, setWorkplans. by run_eff. }
  clearbody st1. subst st1.
  set (st1 := {| workplans := f <$> workplans st;
                 loadingList := loadingList st;
                 regenerating := regenerating st;
                 selectedId := selectedId st; error := error st;
                 roleDrafts := <[k := value]> (roleDrafts st) |}) in *.
  assert (selected st1 = Some (f sel)) as Hsel1.
  { unfold selected. simpl. by rewrite Hid, firstWith_fmap, Hfirst. }
  assert (readDraft (roleDrafts st1) (ev_id (event (f sel))) = Some value)
    as Hdraft.
  { rewrite Hf. unfold readDraft. simpl. fold k.
    by rewrite lookup_insert_eq. }
  unfold st2.
  rewrite (handleRegenerate_run regenerate st1 (f sel) value Hsel1 Hdraft).
  rewrite Hf, Hreq.
  destruct res as [okb body]. simpl in Hok, Hjson. subst okb body.
  split.
  - unfold selected. simpl. fold k.
    rewrite Hid, !firstWith_fmap, Hfirst; simpl.
    + rewrite Hf, decide_True by done. eexists. split; [done|].
      simpl. split; [apply Hf|done].
    + done.
    + intros item. by case_decide.
  - simpl. fold k. rewrite lookup_insert_eq. f_equal.
    destruct (decide (trim value = "")) as [Ht|Ht].
    + rewrite decide_False; [done|]. apply trim_length in Ht. lia.
    + rewrite decide_True; [done|].
      assert (String.length (trim value) ≠ 0%nat) by by rewrite trim_length.
      lia.
Qed.
End commit_role.

(** ** More on the chat ingress *)

Section route_more.
Import JS Route.
Context (verifyTelegramServerToken : string → outcome bool)
        (jwtVerify : string → outcome unit)
        (getUserById : json → outcome unit)
        (insertMessage_throws : Store → Message → bool)
        (runWorkflow : WorkflowInput → outcome WorkflowResult)
        (clock : nat → Z).

Local Abbreviation POST :=
  (Route.POST verifyTelegramServerToken jwtVerify getUserById
     insertMessage_throws runWorkflow clock).

Local Abbreviation process :=
  (Route.process getUserById insertMessage_throws runWorkflow clock).

(** What the processing steps leave behind: an answer 400 and the store as
    it was, an answer 200 and both messages stored, or a throw with nothing
    or the message of the user stored. *)
Lemma process_outcomes (req : NextRequest) (store : Store) :
  (∃ r, process req store = (Returns r, store) ∧ status r = 400)
  ∨ (∃ r m1 m2, process req store = (Returns r, store ++ [m1; m2])
       ∧ status r = 200 ∧ role m1 = "user" ∧ role m2 = "assistant")
  ∨ process req store = (Throws, store)
  ∨ (∃ m1, process req store = (Throws, store ++ [m1]) ∧ role m1 = "user").
Proof.
  unfold Route.process, json_response, insertMessage. run_eff.
  destruct (json_body req) as [parsed|]; simpl; [|by right; right; left].
  destruct (destructure parsed) as [[message userId]|]; simpl;
    [|by right; right; left].
  destruct (negb (truthy_json message) || negb (truthy_json userId)); simpl.
  { left. by eexists. }
  destruct (getUserById _); simpl; [|by right; right; left].
  destruct (insertMessage_throws store _); simpl; [by right; right; left|].
  destruct (runWorkflow _) as [workflowResult|]; simpl.
  - destruct (insertMessage_throws _ _); simpl.
    + right. right. right. by eexists.
    + right. left. eexists _, _, _. rewrite <-app_assoc. by simpl.
  - right. right. right. by eexists.
Qed.

(** What the handler does with a request, by the fate of its token. *)
Lemma POST_by_token (req : NextRequest) (store : Store) :
  (∃ r, POST req store = (Returns r, store) ∧ status r = 401)
  ∨ POST req store
    = match process req store with
      | (Returns r, store') => (Returns r, store')
      | (Throws, store') =>
          (Returns {| status := 500;
                      body := JObj [("error", JStr "Failed to process message")] |},
           store')
      end.
Proof.
  unfold Route.POST, unauthorized, json_response. run_eff.
  destruct (authorization req) as [header|]; simpl; [|left; by eexists].
  destruct (truthy_string (bearerToken header)); simpl; [|left; by eexists].
  destruct (verifyTelegramServerToken (bearerToken header)) as [[]|]; simpl.
  - right. by destruct (process req store) as [[] ?].
  - destruct (jwtVerify (bearerToken header)); simpl; [|left; by eexists].
    right. by destruct (process req store) as [[] ?].
  - destruct (jwtVerify (bearerToken header)); simpl; [|left; by eexists].
    right. by destruct (process req store) as [[] ?].
Qed.

(** X22.  The handler answers every request: it never throws, and the
    status is 200, 400, 401 or 500.  An answer 400 or 401 stores nothing; an
    answer 200 stores exactly the message of the user and then that of the
    assistant; an answer 500 stores nothing or the message of the user
    alone.  What was stored before is never touched. *)
Theorem POST_always_answers (req : NextRequest) (store : Store) :
  ∃ r store', POST req store = (Returns r, store')
    ∧ (status r = 401 ∧ store' = store
       ∨ status r = 400 ∧ store' = store
       ∨ status r = 200
         ∧ (∃ m1 m2, store' = store ++ [m1; m2]
              ∧ role m1 = "user" ∧ role m2 = "assistant")
       ∨ status r = 500
         ∧ (store' = store
            ∨ ∃ m1, store' = store ++ [m1] ∧ role m1 = "user")).
Proof.
  destruct (POST_by_token req store) as [(r & -> & Hr) | ->].
  { eexists _, _. split; [done|]. by left. }
  destruct (process_outcomes req store)
    as [(r & -> & Hr) | [(r & m1 & m2 & -> & Hr & H1 & H2)
        | [-> | (m1 & -> & H1)]]];
    eexists _, _; (split; [done|]).
  - right. by left.
  - right. right. left. split; [done|]. by eexists _, _.
  - right. right. right. split; [done|]. by left.
  - right. right. right. split; [done|]. right. by eexists.
Qed.

(** X23.  A request that passes every step is answered 200 with the text
    of the workflow; the message of the user and then that of the assistant
    are stored after what was there; the error flag of the answer and the
    error mark of the stored reply are set exactly when the workflow result
    has [error === true]. *)
Theorem POST_success (req : NextRequest) (header : string) (parsed : json)
    (message userId : option json) (workflowResult : WorkflowResult)
    (store : Store) :
  authorization req = Some header →
  bearerToken header ≠ "" →
  verifyTelegramServerToken (bearerToken header) = Returns true
  ∨ jwtVerify (bearerToken header) = Returns () →
  json_body req = Returns parsed →
  destructure parsed = Returns (message, userId) →
  truthy_json message = true →
  truthy_json userId = true →
  getUserById (value userId) = Returns () →
  insertMessage_throws store (inboundMessage clock message userId) = false →
  runWorkflow (workflowInput message userId) = Returns workflowResult →
  insertMessage_throws (store ++ [inboundMessage clock message userId])
    (outboundMessage clock userId workflowResult) = false →
  POST req store
  = (Returns
       {| status := 200;
          body := JObj [("response", JStr (output_text workflowResult));
                        ("error", JBool (hasError workflowResult))] |},
     store ++ [inboundMessage clock message userId;
               outboundMessage clock userId workflowResult])
  ∧ (metadata_error (outboundMessage clock userId workflowResult) = Some true
     ↔ error workflowResult = Some (JBool true)).
Proof.
  intros Hauth Htoken Hvalid Hbody Hparsed Hm Hu Huser Hfirst Hwf Hsecond.
  split.
  2:{ unfold outboundMessage, hasError. simpl.
      destruct (error workflowResult) as [[| [] | | | |]|]; split; done. }
  rewrite (POST_accepted _ _ _ _ _ _ req header store Hauth Htoken Hvalid).
  unfold Route.process, insertMessage, json_response. run_eff.
  rewrite Hbody. simpl. rewrite Hparsed. simpl. rewrite Hm, Hu. simpl.
  rewrite Huser. simpl. rewrite Hfirst. simpl. rewrite Hwf. simpl.
  rewrite Hsecond. simpl. by rewrite <-app_assoc.
Qed.

(** X24.  The scheme is optional.  For a token that is not empty and has
    no white space at either end (so that the token alone and ["Bearer "]
    followed by the token are both values the header can be read as), and
    that does not itself contain ["Bearer "], the header that holds the
    bare token is handled exactly like the header with the scheme. *)
Theorem POST_scheme_optional (token : string) (body : outcome json)
    (store : Store) :
  token ≠ "" →
  Notions.header_value token →
  bearerToken token = token →
  Notions.header_value ("Bearer " +:+ token)
  ∧ POST {| authorization := Some token; json_body := body |} store
    = POST {| authorization := Some ("Bearer " +:+ token); json_body := body |}
        store.
Proof.
  intros Hne [Hstart Hend] Hbare. split.
  - split; [done|]. rewrite rev_append.
    destruct (String.rev token) as [|c r] eqn:Hrev.
    + apply (f_equal String.rev) in Hrev. rewrite rev_involutive in Hrev.
      done.
    + rewrite append_cons. exact Hend.
  - unfold Route.POST, process. run_eff.
    unfold bearerToken at 4 5 6. rewrite !replace_front. simpl.
    by rewrite Hbare.
Qed.

(** X25.  The server token is tried first: once it verifies, the answer
    does not depend on what the check of user tokens would say. *)
Theorem POST_server_token_first (jwtVerify' : string → outcome unit)
    (req : NextRequest) (header : string) (store : Store) :
  authorization req = Some header →
  verifyTelegramServerToken (bearerToken header) = Returns true →
  POST req store
  = Route.POST verifyTelegramServerToken jwtVerify' getUserById
      insertMessage_throws runWorkflow clock req store.
Proof.
  intros Hauth Hserver. unfold Route.POST. run_eff.
  rewrite Hauth. simpl.
  destruct (truthy_string (bearerToken header)); simpl; [|done].
  by rewrite Hserver.
Qed.

(** X26.  With an accepted token, a body that cannot be parsed, a body
    [null], a user lookup that throws, or a first [insertMessage] that
    throws is answered 500 with nothing stored, and the workflow is not
    what decides the answer. *)
Theorem POST_early_failure (req : NextRequest) (header : string)
    (store : Store) :
  authorization req = Some header →
  bearerToken header ≠ "" →
  verifyTelegramServerToken (bearerToken header) = Returns true
  ∨ jwtVerify (bearerToken header) = Returns () →
  json_body req = Throws
  ∨ json_body req = Returns JNull
  ∨ (∃ parsed message userId,
       json_body req = Returns parsed
       ∧ destructure parsed = Returns (message, userId)
       ∧ truthy_json message = true ∧ truthy_json userId = true
       ∧ (getUserById (value userId) = Throws
          ∨ getUserById (value userId) = Returns ()
            ∧ insertMessage_throws store
                (inboundMessage clock message userId) = true)) →
  POST req store
  = (Returns {| status := 500;
                body := JObj [("error", JStr "Failed to process message")] |},
     store).
Proof.
  intros Hauth Htoken Hvalid Hearly.
  rewrite (POST_accepted _ _ _ _ _ _ req header store Hauth Htoken Hvalid).
  unfold Route.process, insertMessage, json_response. run_eff.
  destruct Hearly as [-> | [-> | (parsed & message & userId & -> & Hp & Hm
                                  & Hu & Hlater)]]; simpl; [done..|].
  rewrite Hp. simpl. rewrite Hm, Hu. simpl.
  destruct Hlater as [-> | [-> ->]]; done.
Qed.
End route_more.

Section route_more_witnesses.
Import JS Route.

(** X23 at the body [{message: "hi", userId: "u1"}] and a workflow that
    puts out ["hello"]. *)
Lemma POST_success_witness :
  POST (Samples.accepts "secret") Samples.noJwt (λ _, Returns ())
    (λ _ _, false) (Samples.answers "hello") Samples.noon
    (Samples.request (Some "Bearer secret") Samples.chatBody) []
  = (Returns {| status := 200;
                body := JObj [("response", JStr "hello");
                              ("error", JBool false)] |},
     [inboundMessage Samples.noon (Some (JStr "hi")) (Some (JStr "u1"));
      outboundMessage Samples.noon (Some (JStr "u1"))
        {| output_text := "hello"; error := Some (JBool false) |}]).
Proof.
  refine (proj1 (POST_success (Samples.accepts "secret") Samples.noJwt
                   (λ _, Returns ()) (λ _ _, false) (Samples.answers "hello")
                   Samples.noon
                   (Samples.request (Some "Bearer secret") Samples.chatBody)
                   "Bearer secret" Samples.chatBody
                   (Some (JStr "hi")) (Some (JStr "u1"))
                   {| output_text := "hello"; error := Some (JBool false) |} []
                   _ _ _ _ _ _ _ _ _ _ _)); try reflexivity.
  - vm_compute. discriminate.
  - left. reflexivity.
Defined.

(** X24 at the bare token ["secret"]. *)
Lemma POST_scheme_optional_witness :
  POST (Samples.accepts "secret") Samples.noJwt (λ _, Returns ())
    (λ _ _, false) (Samples.answers "hello") Samples.noon
    (Samples.request (Some "secret") Samples.chatBody) []
  = POST (Samples.accepts "secret") Samples.noJwt (λ _, Returns ())
      (λ _ _, false) (Samples.answers "hello") Samples.noon
      (Samples.request (Some "Bearer secret") Samples.chatBody) [].
Proof.
  apply (POST_scheme_optional (Samples.accepts "secret") Samples.noJwt
           (λ _, Returns ()) (λ _ _, false) (Samples.answers "hello")
           Samples.noon "secret" (Returns Samples.chatBody) []).
  - discriminate.
  - split; reflexivity.
  - reflexivity.
Defined.

(** X25 at a server token that verifies and a user-token check that would
    accept as well. *)
Lemma POST_server_token_first_witness :
  POST (Samples.accepts "secret") Samples.noJwt (λ _, Returns ())
    (λ _ _, false) (Samples.answers "hello") Samples.noon
    (Samples.request (Some "Bearer secret") Samples.chatBody) []
  = POST (Samples.accepts "secret") (λ _, Returns ()) (λ _, Returns ())
      (λ _ _, false) (Samples.answers "hello") Samples.noon
      (Samples.request (Some "Bearer secret") Samples.chatBody) [].
Proof.
  apply (POST_server_token_first (Samples.accepts "secret") Samples.noJwt
           (λ _, Returns ()) (λ _ _, false) (Samples.answers "hello")
           Samples.noon (λ _, Returns ())
           (Samples.request (Some "Bearer secret") Samples.chatBody)
           "Bearer secret" []); reflexivity.
Defined.

(** X26 at the body [null]. *)
Lemma POST_early_failure_witness :
  POST (Samples.accepts "secret") Samples.noJwt (λ _, Returns ())
    (λ _ _, false) (Samples.answers "hello") Samples.noon
    (Samples.request (Some "Bearer secret") JNull) []
  = (Returns {| status := 500;
                body := JObj [("error", JStr "Failed to process message")] |},
     []).
Proof.
  apply (POST_early_failure (Samples.accepts "secret") Samples.noJwt
           (λ _, Returns ()) (λ _ _, false) (Samples.answers "hello")
           Samples.noon
           (Samples.request (Some "Bearer secret") JNull) "Bearer secret" []).
  - reflexivity.
  - vm_compute. discriminate.
  - left. reflexivity.
  - right. left. reflexivity.
Defined.
End route_more_witnesses.

Section workplan_more_witnesses.
Import JS Workplan.

(** X15 at a mock set with two entries of one identity. *)
Lemma mock_and_arrival_seeding_witness :
  let mocks := [Samples.entry "evt-1" (Some "Lead");
                Samples.entry "evt-1" (Some "Guest")] in
  mockDrafts mocks !! "evt-1" = Some "Guest"
  ∧ seedDrafts mocks ∅ !! "evt-1" = Some "Lead".
Proof.
  intros mocks.
  destruct (mock_and_arrival_seeding mocks "evt-1" eq_refl) as [-> ->].
  split; reflexivity.
Defined.

(** X16 at an arrival of one entry. *)
Lemma load_drafts_cover_witness :
  let item := Samples.entry "evt-2" (Some " Host ") in
  let st' := (load [] (Samples.answer [item]) false (Samples.shows [] ∅)).2 in
  ∃ draft, roleDrafts st' !! "evt-2" = Some draft
    ∧ readDraft (roleDrafts st') "evt-2" = Some draft.
Proof.
  intros item st'.
  apply (load_drafts_cover [] (Samples.answer [item]) (Samples.shows [] ∅) item).
  - vm_compute. left.
  - reflexivity.
Defined.

(** X17 at the text ["  "] typed over the role ["Lead"]. *)
Lemma display_after_typing_witness :
  let item := Samples.entry "evt-1" (Some "Lead") in
  let st := Samples.shows [item] {["evt-1" := "Lead"]} in
  let st' := (handleRoleChange "evt-1" "  " st).2 in
  selectedRoleDisplay (λ _, "Attendee") st' = Returns "Attendee".
Proof.
  intros item st st'.
  destruct (display_after_typing (λ _, "Attendee") "  " st item eq_refl)
    as [_ Hdisplay].
  exact Hdisplay.
Defined.

(** X18 at a panel without entries. *)
Lemma handleRegenerate_nothing_selected_witness :
  handleRegenerate (Samples.regenerates None) (Samples.shows [] ∅)
  = (Returns (), Samples.shows [] ∅).
Proof. apply handleRegenerate_nothing_selected. reflexivity. Defined.

(** X19 at an endpoint that answers with a bad status. *)
Lemma handleRegenerate_failure_witness :
  let st := Samples.shows [Samples.entry "evt-1" (Some "Lead")]
              {["evt-1" := "Lead"]} in
  let st' := (handleRegenerate Samples.overloaded st).2 in
  workplans st' = workplans st
  ∧ error st'
    = Some "Unable to regenerate workplan right now. Try again later.".
Proof.
  intros st st'. unfold st'.
  rewrite (handleRegenerate_failure Samples.overloaded st
             (Samples.entry "evt-1" (Some "Lead")) "Lead" eq_refl eq_refl).
  - split; reflexivity.
  - right. eexists. split; [reflexivity|]. left. reflexivity.
Defined.

(** X20 at two entries, the first selected, and an answer without role. *)
Lemma handleRegenerate_success_witness :
  let st := Samples.shows [Samples.entry "evt-1" (Some "Lead");
                           Samples.entry "evt-2" (Some "Guest")]
              {["evt-1" := " Lead "]} in
  let st' := (handleRegenerate (Samples.regenerates None) st).2 in
  workplans st' !! 1%nat = Some (Samples.entry "evt-2" (Some "Guest"))
  ∧ roleDrafts st' !! "evt-1" = Some "Lead".
Proof.
  intros st st'.
  destruct (handleRegenerate_success (Samples.regenerates None) st
              (Samples.entry "evt-1" (Some "Lead")) " Lead "
              _ (Samples.plan None) eq_refl eq_refl eq_refl eq_refl eq_refl)
    as (Hentries & _ & Hdraft & _).
  split.
  - destruct (Hentries 1%nat (Samples.entry "evt-2" (Some "Guest")) eq_refl)
      as (item' & Hitem & _ & Hsame & _).
    rewrite (Hsame ltac:(discriminate)) in Hitem. exact Hitem.
  - exact Hdraft.
Defined.

(** X21 at the text [" Host "] typed over the role ["Lead"]. *)
Lemma typed_role_is_committed_witness :
  let st := Samples.shows [Samples.entry "evt-1" (Some "Lead")]
              {["evt-1" := "Lead"]} in
  let st1 := (handleRoleChange "evt-1" " Host " st).2 in
  let st2 := (handleRegenerate (Samples.regenerates None) st1).2 in
  (∃ item, selected st2 = Some item ∧ role item = Some "Host")
  ∧ roleDrafts st2 !! "evt-1" = Some "Host".
Proof.
  intros st st1 st2.
  destruct (typed_role_is_committed (Samples.regenerates None) " Host " st
              (Samples.entry "evt-1" (Some "Lead")) _ (Samples.plan None)
              eq_refl eq_refl eq_refl eq_refl)
    as [(item & Hsel & _ & Hrole) Hdraft].
  split; [|exact Hdraft].
  exists item. split; [exact Hsel|exact Hrole].
Defined.
End workplan_more_witnesses.

(** ** Draft seeding in a run of the workplan panel *)

Section seeding_in_a_run.
Import JS Workplan.




End seeding_in_a_run.

Section seeding_witness.
Import JS Workplan.

End seeding_witness.
